(** * h-baselines: the PPO model (hbaselines/ppo/policy.py) and the abstract
      policy class (hbaselines/base_policies/base.py)

    The Python code builds a TensorFlow graph in [Model.__init__] and runs it
    in [Model.train].  The graph is embedded as a term language ([tf.tensor])
    that [__init__] constructs exactly as the source does, together with an
    evaluator giving every node its mathematical value.  Tensor and array
    entries are mathematical reals: the rounding of float32/float64 is not
    part of the model.  Python float hyper-parameters and literals are
    rationals, embedded in the reals by [Q2R] when a graph is evaluated. *)

From Stdlib Require Import String.
From Stdlib Require Import Reals Lra Lia List ZArith QArith Bool Arith.
Import ListNotations.

Set Implicit Arguments.

(** ** Option monad used for computations that may raise *)

Definition obind {A B : Type} (o : option A) (k : A -> option B) : option B :=
  match o with
  | Some a => k a
  | None => None
  end.

Notation "x <- e ;; k" := (obind e (fun x => k))
  (at level 61, e at next level, right associativity).

(** ** Element-wise helpers shared by the numpy and TensorFlow models *)

Section Elementwise.
Variables T U V : Type.

Fixpoint zip_with (f : T -> U -> V) (u : list T) (v : list U) : list V :=
  match u, v with
  | a :: u', b :: v' => f a b :: zip_with f u' v'
  | _, _ => []
  end.

Variable W : Type.

Fixpoint zip_with3 (f : T -> U -> V -> W)
         (u : list T) (v : list U) (w : list V) : list W :=
  match u, v, w with
  | a :: u', b :: v', c :: w' => f a b c :: zip_with3 f u' v' w'
  | _, _, _ => []
  end.
End Elementwise.

Local Open Scope R_scope.

(** Broadcasting of two rank-1 operands, as numpy and TensorFlow do it:
    equal lengths combine entry by entry, a length-1 operand is stretched,
    anything else is a shape error ([None]). *)
Definition broadcast2 (f : R -> R -> R) (u v : list R) : option (list R) :=
  if Nat.eqb (length u) (length v) then Some (zip_with f u v)
  else match u, v with
       | [a], _ => Some (map (f a) v)
       | _, [b] => Some (map (fun x => f x b) u)
       | _, _ => None
       end.

(** ** numpy on rank-1 float arrays *)

Module np.

Definition sum (l : list R) : R := fold_right Rplus 0 l.

(** [ndarray.mean()] of a non-empty array.  (On an empty array numpy gives
    nan, which is no real number; every statement below that concludes a
    number or a bound from a mean assumes a non-empty batch.) *)
Definition mean (l : list R) : R := sum l / INR (length l).

(** [ndarray.std()]: square root of the mean squared deviation (ddof = 0). *)
Definition std (l : list R) : R :=
  sqrt (mean (map (fun x => (x - mean l) * (x - mean l)) l)).

(** [a - b] on two rank-1 arrays *)
Definition subtract (a b : list R) : option (list R) := broadcast2 Rminus a b.

End np.

(** ** The TensorFlow graph language *)

Module tf.

(** The placeholders created in part 1 of [__init__], and the input
    placeholders [X], [S], [M] owned by the train model. *)
Inductive placeholder : Type :=
| train_model_X
| train_model_S
| train_model_M
| self_A
| self_ADV
| self_R
| self_OLDNEGLOGPAC
| self_OLDVPRED
| self_LR
| self_clip_range.

Definition placeholder_eqb (p q : placeholder) : bool :=
  match p, q with
  | train_model_X, train_model_X
  | train_model_S, train_model_S
  | train_model_M, train_model_M
  | self_A, self_A
  | self_ADV, self_ADV
  | self_R, self_R
  | self_OLDNEGLOGPAC, self_OLDNEGLOGPAC
  | self_OLDVPRED, self_OLDVPRED
  | self_LR, self_LR
  | self_clip_range, self_clip_range => true
  | _, _ => false
  end.

(** Graph nodes.  [pd_neglogp], [pd_entropy] and [vf] are the outputs of
    the train model ([train_model.pd.neglogp(A)], [train_model.pd.entropy()],
    [train_model.vf]); the network behind them is supplied by the caller of
    [__init__] and is not part of this repository. *)
Inductive tensor : Type :=
| Placeholder (p : placeholder)
| Const (c : Q)
| pd_neglogp (a : tensor)
| pd_entropy
| vf
| neg (t : tensor)
| add (a b : tensor)
| sub (a b : tensor)
| mul (a b : tensor)
| exp (t : tensor)
| square (t : tensor)
| abs (t : tensor)
| maximum (a b : tensor)
| clip_by_value (t lo hi : tensor)
| reduce_mean (t : tensor)
| greater (a b : tensor)
| to_float (t : tensor).

Definition Q_eqb (a b : Q) : bool :=
  Z.eqb (Qnum a) (Qnum b) && Pos.eqb (Qden a) (Qden b).

(** Node identity (syntactic equality of graph terms). *)
Fixpoint tensor_eqb (s t : tensor) : bool :=
  match s, t with
  | Placeholder p, Placeholder q => placeholder_eqb p q
  | Const c, Const d => Q_eqb c d
  | pd_neglogp a, pd_neglogp b => tensor_eqb a b
  | pd_entropy, pd_entropy => true
  | vf, vf => true
  | neg a, neg b => tensor_eqb a b
  | add a1 a2, add b1 b2 => tensor_eqb a1 b1 && tensor_eqb a2 b2
  | sub a1 a2, sub b1 b2 => tensor_eqb a1 b1 && tensor_eqb a2 b2
  | mul a1 a2, mul b1 b2 => tensor_eqb a1 b1 && tensor_eqb a2 b2
  | exp a, exp b => tensor_eqb a b
  | square a, square b => tensor_eqb a b
  | abs a, abs b => tensor_eqb a b
  | maximum a1 a2, maximum b1 b2 => tensor_eqb a1 b1 && tensor_eqb a2 b2
  | clip_by_value a1 a2 a3, clip_by_value b1 b2 b3 =>
      tensor_eqb a1 b1 && tensor_eqb a2 b2 && tensor_eqb a3 b3
  | reduce_mean a, reduce_mean b => tensor_eqb a b
  | greater a1 a2, greater b1 b2 => tensor_eqb a1 b1 && tensor_eqb a2 b2
  | to_float a, to_float b => tensor_eqb a b
  | _, _ => false
  end.

(** The placeholders owned by the train model.  Its three outputs are
    computed by the caller's network from [X] and, for a recurrent policy,
    from [S] and [M]; all three count as inputs of every output, so that a
    node [occurs] denies is in no case an input. *)
Definition network_input (s : tensor) : bool :=
  match s with
  | Placeholder train_model_X
  | Placeholder train_model_S
  | Placeholder train_model_M => true
  | _ => false
  end.

(** [occurs s t]: node [s] is [t] or one of the nodes [t] is computed
    from. *)
Fixpoint occurs (s t : tensor) : bool :=
  tensor_eqb s t ||
  match t with
  | Placeholder _ | Const _ => false
  | pd_entropy | vf => network_input s
  | pd_neglogp a => network_input s || occurs s a
  | neg a | exp a | square a | abs a
  | reduce_mean a | to_float a => occurs s a
  | add a b | sub a b | mul a b | maximum a b | greater a b =>
      occurs s a || occurs s b
  | clip_by_value a b c => occurs s a || occurs s b || occurs s c
  end.

(** *** Values and feeds *)

Inductive value : Type :=
| Scalar (r : R)
| Vector (v : list R).

(** What a feed dictionary may hold for a placeholder.  Rank-2 feeds
    (observations, actions, recurrent states) are consumed by the policy
    network only. *)
Inductive feedval : Type :=
| FScalar (r : R)
| FVector (v : list R)
| FMatrix (m : list (list R)).

Definition feed_dict : Type := list (placeholder * feedval).

Fixpoint feed_get (p : placeholder) (td : feed_dict) : option feedval :=
  match td with
  | [] => None
  | (q, x) :: td' => if placeholder_eqb p q then Some x else feed_get p td'
  end.

(** Values of the train model's outputs for the current parameters and
    feed. *)
Record net_out : Type := {
  neglogp_out : list R;
  entropy_out : list R;
  vf_out : list R
}.

Definition lift1 (f : R -> R) (x : value) : value :=
  match x with
  | Scalar r => Scalar (f r)
  | Vector v => Vector (map f v)
  end.

Definition lift2 (f : R -> R -> R) (x y : value) : option value :=
  match x, y with
  | Scalar a, Scalar b => Some (Scalar (f a b))
  | Scalar a, Vector v => Some (Vector (map (f a) v))
  | Vector u, Scalar b => Some (Vector (map (fun x => f x b) u))
  | Vector u, Vector v => option_map Vector (broadcast2 f u v)
  end.

Definition mean_value (x : value) : R :=
  match x with
  | Scalar r => r
  | Vector v => np.mean v
  end.

(** Indicator of [a > b]; [tf.greater] yields a boolean tensor which the
    graph only ever passes to [tf.to_float], so booleans are represented
    by the float they are cast to. *)
Definition gt_ind (a b : R) : R := if Rlt_dec b a then 1 else 0.

(** [tf.clip_by_value(t, lo, hi)] is [maximum(minimum(t, hi), lo)]. *)
Definition clip (t lo hi : R) : R := Rmax (Rmin t hi) lo.

Fixpoint eval (net : net_out) (td : feed_dict) (t : tensor) : option value :=
  match t with
  | Placeholder p =>
      match feed_get p td with
      | Some (FScalar r) => Some (Scalar r)
      | Some (FVector v) => Some (Vector v)
      | _ => None
      end
  | Const c => Some (Scalar (Q2R c))
  | pd_neglogp _ => Some (Vector (neglogp_out net))
  | pd_entropy => Some (Vector (entropy_out net))
  | vf => Some (Vector (vf_out net))
  | neg a => option_map (lift1 Ropp) (eval net td a)
  | add a b => x <- eval net td a ;; y <- eval net td b ;; lift2 Rplus x y
  | sub a b => x <- eval net td a ;; y <- eval net td b ;; lift2 Rminus x y
  | mul a b => x <- eval net td a ;; y <- eval net td b ;; lift2 Rmult x y
  | exp a => option_map (lift1 Rtrigo_def.exp) (eval net td a)
  | square a => option_map (lift1 (fun x => x * x)) (eval net td a)
  | abs a => option_map (lift1 Rabs) (eval net td a)
  | maximum a b => x <- eval net td a ;; y <- eval net td b ;; lift2 Rmax x y
  | clip_by_value a lo hi =>
      x <- eval net td a ;; l <- eval net td lo ;; h <- eval net td hi ;;
      m <- lift2 Rmin x h ;; lift2 Rmax m l
  | reduce_mean a =>
      option_map (fun x => Scalar (mean_value x)) (eval net td a)
  | greater a b => x <- eval net td a ;; y <- eval net td b ;; lift2 gt_ind x y
  | to_float a => eval net td a
  end.

(** *** Optimizers, gradients and the training op *)

Inductive communicator : Type :=
| COMM_WORLD
| Comm (id : nat).

(** The two optimizer classes in scope in policy.py: [tf.train.AdamOptimizer]
    and the imported [MpiAdamOptimizer], the Adam optimizer of baselines
    that averages gradients across the MPI processes of its communicator. *)
Inductive optimizer : Type :=
| AdamOptimizer (learning_rate : tensor) (epsilon : Q)
| MpiAdamOptimizer (comm : communicator) (learning_rate : tensor)
                   (mpi_rank_weight : Q) (epsilon : Q).

Definition averages_gradients_across_processes (o : optimizer) : bool :=
  match o with
  | AdamOptimizer _ _ => false
  | MpiAdamOptimizer _ _ _ _ => true
  end.

(** [tf.trainable_variables(scope)] *)
Inductive variables : Type :=
| trainable_variables (scope : string).

(** Lists of gradient tensors, one per variable. *)
Inductive gradients : Type :=
| compute_gradients (trainer : optimizer) (loss : tensor) (params : variables)
| clip_by_global_norm (g : gradients) (clip_norm : Q).

Inductive operation : Type :=
| apply_gradients (trainer : optimizer) (grads : gradients) (var : variables).

(** The tensor a list of gradients differentiates. *)
Fixpoint objective (g : gradients) : tensor :=
  match g with
  | compute_gradients _ l _ => l
  | clip_by_global_norm g' _ => objective g'
  end.

End tf.

(** Python's arithmetic operators on tensors build graph nodes. *)
Declare Scope tensor_scope.
Delimit Scope tensor_scope with tensor.
Bind Scope tensor_scope with tf.tensor.
Notation "a + b" := (tf.add a b) : tensor_scope.
Notation "a - b" := (tf.sub a b) : tensor_scope.
Notation "a * b" := (tf.mul a b) : tensor_scope.
Notation "- a" := (tf.neg a) : tensor_scope.

(** ** hbaselines/ppo/policy.py *)

Module ppo.

(** The module-level name [MPI]: the mpi4py module when the imports at the
    top of the file succeed, Python's [None] after an ImportError. *)
Inductive mpi_module : Type := mpi4py_MPI.

(** What [policy(nbatch, nsteps, sess)] returns; the network itself is the
    caller's. *)
Record policy_model : Type := policy {
  model_nbatch : nat;
  model_nsteps : nat
}.

(** Keyword arguments of [Model.__init__].  [policy] is the constructor
    above; [ob_space] and [ac_space] are never read by the body. *)
Record kwargs : Type := {
  nbatch_act : nat;
  nbatch_train : nat;
  nsteps : nat;
  ent_coef : Q;
  vf_coef : Q;
  max_grad_norm : option Q;
  mpi_rank_weight : Q;
  comm : option tf.communicator;
  microbatch_size : option nat
}.

(** *** Part 1: the placeholders *)

Definition A : tf.tensor := tf.Placeholder tf.self_A.
Definition ADV : tf.tensor := tf.Placeholder tf.self_ADV.
(** The placeholder [R] of the source ([R] names the reals here). *)
Definition R_ : tf.tensor := tf.Placeholder tf.self_R.
Definition OLDNEGLOGPAC : tf.tensor := tf.Placeholder tf.self_OLDNEGLOGPAC.
Definition OLDVPRED : tf.tensor := tf.Placeholder tf.self_OLDVPRED.
Definition LR : tf.tensor := tf.Placeholder tf.self_LR.
Definition clip_range : tf.tensor := tf.Placeholder tf.self_clip_range.

(** *** Part 2: the loss *)

Definition neglogpac : tf.tensor := tf.pd_neglogp A.

Definition entropy : tf.tensor := tf.reduce_mean tf.pd_entropy.

Definition vpred : tf.tensor := tf.vf.

Definition vpredclipped : tf.tensor :=
  (OLDVPRED + tf.clip_by_value (tf.vf - OLDVPRED) (- clip_range) clip_range)%tensor.

Definition vf_losses1 : tf.tensor := tf.square (vpred - R_).

Definition vf_losses2 : tf.tensor := tf.square (vpredclipped - R_).

Definition vf_loss : tf.tensor :=
  (tf.Const 0.5 * tf.reduce_mean (tf.maximum vf_losses1 vf_losses2))%tensor.

Definition ratio : tf.tensor := tf.exp (OLDNEGLOGPAC - neglogpac).

Definition pg_losses : tf.tensor := (- ADV * ratio)%tensor.

Definition pg_losses2 : tf.tensor :=
  (- ADV * tf.clip_by_value ratio (tf.Const 1.0 - clip_range)
                                  (tf.Const 1.0 + clip_range))%tensor.

Definition pg_loss : tf.tensor :=
  tf.reduce_mean (tf.maximum pg_losses pg_losses2).

Definition approxkl : tf.tensor :=
  (tf.Const 0.5 * tf.reduce_mean (tf.square (neglogpac - OLDNEGLOGPAC)))%tensor.

Definition clipfrac : tf.tensor :=
  tf.reduce_mean
    (tf.to_float (tf.greater (tf.abs (ratio - tf.Const 1.0)) clip_range)).

Definition loss (ent_coef vf_coef : Q) : tf.tensor :=
  (pg_loss - entropy * tf.Const ent_coef + vf_loss * tf.Const vf_coef)%tensor.

(** *** The model object *)

Record Model : Type := {
  trainer : tf.optimizer;
  grads : tf.gradients;
  var : tf.variables;
  _train_op : tf.operation;
  loss_names : list string;
  stats_list : list tf.tensor;
  train_model : policy_model;
  act_model : policy_model
}.

(** Calls [__init__] makes on the session after the graph is built. *)
Inductive session_call : Type :=
| initialize
| sync_from_root (comm : option tf.communicator).

Definition __init__ (MPI : option mpi_module) (kw : kwargs)
  : Model * list session_call :=
  let comm :=
    match MPI, comm kw with
    | Some _, None => Some tf.COMM_WORLD
    | _, c => c
    end in
  let act_model := policy (nbatch_act kw) 1 in
  let train_model :=
    match microbatch_size kw with
    | None => policy (nbatch_train kw) (nsteps kw)
    | Some mb => policy mb (nsteps kw)
    end in
  let loss := loss (ent_coef kw) (vf_coef kw) in
  let params := tf.trainable_variables "ppo2_model" in
  let trainer := tf.AdamOptimizer LR 1e-5 in
  let grads_and_var := (tf.compute_gradients trainer loss params, params) in
  let '(grads, var) := grads_and_var in
  let grads :=
    match max_grad_norm kw with
    | Some max_grad_norm => tf.clip_by_global_norm grads max_grad_norm
    | None => grads
    end in
  let grads_and_var := (grads, var) in
  ({| trainer := trainer;
      grads := grads;
      var := var;
      _train_op := tf.apply_gradients trainer (fst grads_and_var)
                                      (snd grads_and_var);
      loss_names := ["policy_loss"; "value_loss"; "policy_entropy";
                     "approxkl"; "clipfrac"]%string;
      stats_list := [pg_loss; vf_loss; entropy; approxkl; clipfrac];
      train_model := train_model;
      act_model := act_model |},
   initialize ::
   match MPI with
   | Some _ => [sync_from_root comm]
   | None => []
   end).

(** *** Running the graph and Model.train *)

Inductive fetch : Type :=
| FetchTensor (t : tf.tensor)
| FetchOp (o : tf.operation).

(** What [sess.run] returns for one fetch: an array for a tensor, Python's
    [None] for an operation. *)
Inductive fetched : Type :=
| Fetched (v : tf.value)
| PyNone.

(** [tf.global_norm] and [tf.clip_by_global_norm] on the flattened list of
    gradient entries.  TensorFlow multiplies every entry by
    [clip_norm * minimum(1 / global_norm, 1 / clip_norm)]. *)
Definition global_norm (g : list R) : R :=
  sqrt (np.sum (map (fun x => x * x) g)).

Definition clip_global (g : list R) (clip_norm : R) : list R :=
  let scale := clip_norm * Rmin (1 / global_norm g) (1 / clip_norm) in
  map (fun x => x * scale) g.

(** The local [advs] of [train] after its second assignment. *)
Definition normalize (advs : list R) : list R :=
  map (fun a => (a - np.mean advs) / (np.std advs + 1e-8)) advs.

(** The local [td_map] of [train]; [None] when [returns - values] raises. *)
Definition train_td_map (lr clip_range : R) (obs : list (list R))
           (returns masks : list R) (actions : list (list R))
           (values neglogpacs : list R) (states : option (list (list R)))
  : option tf.feed_dict :=
  advs <- np.subtract returns values ;;
  let advs := normalize advs in
  let td_map :=
    [ (tf.train_model_X, tf.FMatrix obs);
      (tf.self_A, tf.FMatrix actions);
      (tf.self_ADV, tf.FVector advs);
      (tf.self_R, tf.FVector returns);
      (tf.self_LR, tf.FScalar lr);
      (tf.self_clip_range, tf.FScalar clip_range);
      (tf.self_OLDNEGLOGPAC, tf.FVector neglogpacs);
      (tf.self_OLDVPRED, tf.FVector values) ] in
  Some match states with
       | Some s =>
           td_map ++ [ (tf.train_model_S, tf.FMatrix s);
                       (tf.train_model_M, tf.FVector masks) ]
       | None => td_map
       end.

(** The session, automatic differentiation, the MPI reduction and the Adam
    update belong to TensorFlow and baselines; they are the parameters of
    this section.  [theta] is the state of the session (the values of all
    its variables, optimizer slots included). *)
Section Session.
Variable theta : Type.
Variable forward : policy_model -> theta -> tf.feed_dict -> tf.net_out.
Variable autodiff :
  tf.tensor -> tf.variables -> theta -> tf.feed_dict -> list R.
Variable allreduce_mean : tf.communicator -> Q -> list R -> list R.
Variable adam_update : R -> Q -> list R -> theta -> theta.

Fixpoint eval_gradients (th : theta) (td : tf.feed_dict)
         (g : tf.gradients) : list R :=
  match g with
  | tf.compute_gradients (tf.AdamOptimizer _ _) l params =>
      autodiff l params th td
  | tf.compute_gradients (tf.MpiAdamOptimizer c _ w _) l params =>
      allreduce_mean c w (autodiff l params th td)
  | tf.clip_by_global_norm g' c =>
      clip_global (eval_gradients th td g') (Q2R c)
  end.

Definition run_op (net : tf.net_out) (th0 : theta) (td : tf.feed_dict)
           (o : tf.operation) (th : theta) : option theta :=
  match o with
  | tf.apply_gradients opt g _ =>
      let '(lr, eps) :=
        match opt with
        | tf.AdamOptimizer lr eps => (lr, eps)
        | tf.MpiAdamOptimizer _ lr _ eps => (lr, eps)
        end in
      match tf.eval net td lr with
      | Some (tf.Scalar r) =>
          Some (adam_update r eps (eval_gradients th0 td g) th)
      | _ => None
      end
  end.

(** One [sess.run] step: every fetched tensor is evaluated at the
    parameters [th0] the step started from; an operation moves the
    session from [th] on.  [None] is a TensorFlow run-time error (a
    placeholder that was not fed, incompatible shapes).  (TensorFlow does
    not order the fetched statistics against the update; the gradients,
    which the update waits for, are taken at [th0].) *)
Fixpoint run_fetches (net : tf.net_out) (th0 : theta) (td : tf.feed_dict)
         (fs : list fetch) (th : theta) : option (list fetched * theta) :=
  match fs with
  | [] => Some ([], th)
  | FetchTensor t :: fs' =>
      v <- tf.eval net td t ;;
      r <- run_fetches net th0 td fs' th ;;
      Some (Fetched v :: fst r, snd r)
  | FetchOp o :: fs' =>
      th' <- run_op net th0 td o th ;;
      r <- run_fetches net th0 td fs' th' ;;
      Some (PyNone :: fst r, snd r)
  end.

Definition sess_run (self : Model) (th : theta) (fs : list fetch)
           (td : tf.feed_dict) : option (list fetched * theta) :=
  run_fetches (forward (train_model self) th td) th td fs th.

Definition train (self : Model) (th : theta) (lr clip_range : R)
           (obs : list (list R)) (returns masks : list R)
           (actions : list (list R)) (values neglogpacs : list R)
           (states : option (list (list R)))
  : option (list fetched * theta) :=
  td_map <- train_td_map lr clip_range obs returns masks actions values
                         neglogpacs states ;;
  r <- sess_run self th
         (map FetchTensor (stats_list self) ++ [FetchOp (_train_op self)])
         td_map ;;
  Some (removelast (fst r), snd r).
End Session.

End ppo.

(** ** hbaselines/base_policies/base.py *)

Module base.

Inductive exception : Type :=
| NotImplementedError
| ValueError
| AxisError.

(** *** numpy arrays of any rank: a shape and the entries in row-major
    order *)

Section Arrays.
Variable T : Type.

Record ndarray : Type := {
  shape : list nat;
  data : list T
}.

Definition size (s : list nat) : nat := fold_right Nat.mul 1%nat s.

Definition well_formed (a : ndarray) : Prop :=
  length (data a) = size (shape a).

(** [ndarray.flatten()] *)
Definition flatten (a : ndarray) : ndarray :=
  {| shape := [size (shape a)]; data := data a |}.

(** A possibly negative axis, brought into [0, ndim). *)
Definition normalize_axis (axis : Z) (ndim : nat) : option nat :=
  if (- Z.of_nat ndim <=? axis)%Z && (axis <? Z.of_nat ndim)%Z
  then Some (Z.to_nat (if (axis <? 0)%Z then axis + Z.of_nat ndim else axis))
  else None.

Fixpoint shape_eqb (s1 s2 : list nat) : bool :=
  match s1, s2 with
  | [], [] => true
  | d1 :: r1, d2 :: r2 => Nat.eqb d1 d2 && shape_eqb r1 r2
  | _, _ => false
  end.

(** Two shapes of one rank that agree everywhere but at position [k]. *)
Fixpoint same_off_axis (k : nat) (s1 s2 : list nat) : bool :=
  match s1, s2 with
  | [], [] => true
  | d1 :: r1, d2 :: r2 =>
      match k with
      | O => shape_eqb r1 r2
      | S k' => Nat.eqb d1 d2 && same_off_axis k' r1 r2
      end
  | _, _ => false
  end.

(** Row-major entries of a concatenation: [outer] blocks, each made of
    [ca] entries of the first array followed by [cb] of the second. *)
Fixpoint interleave (outer ca cb : nat) (da db : list T) : list T :=
  match outer with
  | O => []
  | S k =>
      firstn ca da ++ firstn cb db ++
      interleave k ca cb (skipn ca da) (skipn cb db)
  end.

Fixpoint add_dim (k extra : nat) (s : list nat) : list nat :=
  match s with
  | [] => []
  | d :: r =>
      match k with
      | O => (d + extra)%nat :: r
      | S k' => d :: add_dim k' extra r
      end
  end.

(** [np.concatenate((a, b), axis=axis)] for an integer [axis]. *)
Definition concatenate (a b : ndarray) (axis : Z) : ndarray + exception :=
  let ndim := length (shape a) in
  if Nat.eqb ndim 0 then inr ValueError
  else
    match normalize_axis axis ndim with
    | None => inr AxisError
    | Some k =>
        if negb (Nat.eqb (length (shape b)) ndim) then inr ValueError
        else if negb (same_off_axis k (shape a) (shape b)) then inr ValueError
        else
          inl {| shape := add_dim k (nth k (shape b) O) (shape a);
                 data := interleave (size (firstn k (shape a)))
                                    (size (skipn k (shape a)))
                                    (size (skipn k (shape b)))
                                    (data a) (data b) |}
    end.

(** The static method [Policy._get_obs(obs, context, axis=0)];
    [context = None] is Python's [None]. *)
Definition _get_obs (obs : ndarray) (context : option ndarray) (axis : Z)
  : ndarray + exception :=
  match context with
  | Some context =>
      let context := if (axis =? 0)%Z then flatten context else context in
      concatenate obs context axis
  | None => inl obs
  end.
End Arrays.

(** *** The Policy class *)

Section Policy.
(** Types of the objects stored in a policy: the TensorFlow session, gym
    spaces, activation functions, arbitrary keyword-argument values;
    [World] is everything else a method could touch (the session's graph
    and variables, globals, output). *)
Variables Session Space ActFun PyObject World : Type.

Record Policy : Type := {
  sess : Session;
  ob_space : Space;
  ac_space : Space;
  co_space : option Space;
  verbose : Z;
  layers : option (list Z);
  layer_norm : bool;
  act_fun : ActFun;
  use_huber : bool
}.

Definition __init__ (sess : Session) (ob_space ac_space : Space)
           (co_space : option Space) (verbose : Z) (layer_norm : bool)
           (layers : option (list Z)) (act_fun : ActFun)
           (use_huber : bool) : Policy :=
  {| sess := sess; ob_space := ob_space; ac_space := ac_space;
     co_space := co_space; verbose := verbose; layers := layers;
     layer_norm := layer_norm; act_fun := act_fun;
     use_huber := use_huber |}.

(** An instance method: from the instance and the world to a returned
    value or a raised exception, and the instance and world after. *)
Definition method (A : Type) : Type :=
  Policy * World -> (A + exception) * (Policy * World).

Definition raise {A : Type} (e : exception) : method A :=
  fun st => (inr e, st).

Definition initialize : method unit := raise NotImplementedError.

Definition update (update_actor : bool) (kwargs : list (string * PyObject))
  : method unit := raise NotImplementedError.

Definition get_action (obs : ndarray R) (context : option (ndarray R))
           (apply_noise random_actions : bool) (env_num : Z)
  : method (ndarray R) := raise NotImplementedError.

Definition get_td_map : method tf.feed_dict := raise NotImplementedError.
End Policy.

(** *** Policy._get_ob_dim *)

(** A gym space, as far as [_get_ob_dim] reads it: its [shape] tuple. *)
Record gym_space : Type := {
  space_shape : list nat
}.

(** Python's [zip] of two tuples, each pair as the tuple it is, and [sum]. *)
Definition py_zip (a b : list nat) : list (list nat) :=
  zip_with (fun x y => [x; y]) a b.

Definition py_sum (t : list nat) : nat := fold_left Nat.add t 0%nat.

(** The static method [Policy._get_ob_dim(ob_space, co_space)];
    [co_space = None] is Python's [None]. *)
Definition _get_ob_dim (ob_space : gym_space) (co_space : option gym_space)
  : list nat :=
  let ob_dim := space_shape ob_space in
  match co_space with
  | Some co_space => map py_sum (py_zip ob_dim (space_shape co_space))
  | None => ob_dim
  end.

End base.

(** ** The formulas the loss is specified by, per sample *)

Module formula.

(** Clipped probability-ratio surrogate of one sample: advantage [adv],
    old and new negative log-probabilities [old], [new], clip range [c]. *)
Definition pg_term (c adv old new : R) : R :=
  let ratio := Rtrigo_def.exp (old - new) in
  Rmax (- adv * ratio) (- adv * tf.clip ratio (1 - c) (1 + c)).

(** Clipped squared value error of one sample: prediction [vpred], old
    prediction [old], return [ret]. *)
Definition vf_term (c vpred old ret : R) : R :=
  let vpredclipped := old + tf.clip (vpred - old) (- c) c in
  Rmax ((vpred - ret) * (vpred - ret))
       ((vpredclipped - ret) * (vpredclipped - ret)).

(** Squared drift of the negative log-probability of one sample. *)
Definition kl_term (new old : R) : R := (new - old) * (new - old).

(** A training batch fed to the graph: the placeholders the loss reads
    hold vectors of one length, which is also the length of the three
    outputs of the train model, and the clip range is a scalar. *)
Record batch (net : tf.net_out) (td : tf.feed_dict)
       (adv ret oldneglogp oldvpred : list R) (c : R) : Prop := {
  fed_ADV : tf.feed_get tf.self_ADV td = Some (tf.FVector adv);
  fed_R : tf.feed_get tf.self_R td = Some (tf.FVector ret);
  fed_OLDNEGLOGPAC :
    tf.feed_get tf.self_OLDNEGLOGPAC td = Some (tf.FVector oldneglogp);
  fed_OLDVPRED : tf.feed_get tf.self_OLDVPRED td = Some (tf.FVector oldvpred);
  fed_clip_range : tf.feed_get tf.self_clip_range td = Some (tf.FScalar c);
  len_ret : length ret = length adv;
  len_oldneglogp : length oldneglogp = length adv;
  len_oldvpred : length oldvpred = length adv;
  len_neglogp : length (tf.neglogp_out net) = length adv;
  len_entropy : length (tf.entropy_out net) = length adv;
  len_vf : length (tf.vf_out net) = length adv
}.

End formula.

(** ** A small concrete batch used to exercise the statements *)

Module sample.

Definition net : tf.net_out :=
  {| tf.neglogp_out := [0; 1]; tf.entropy_out := [1; 1]; tf.vf_out := [2; 0] |}.

Definition td : tf.feed_dict :=
  [ (tf.self_ADV, tf.FVector [1; -1]);
    (tf.self_R, tf.FVector [1; 3]);
    (tf.self_LR, tf.FScalar 1e-3);
    (tf.self_clip_range, tf.FScalar 0.2);
    (tf.self_OLDNEGLOGPAC, tf.FVector [0; 0]);
    (tf.self_OLDVPRED, tf.FVector [0; 0]) ].

(** The outputs of a train model that has not moved from the old policy
    and value function of [td]. *)
Definition net_unmoved : tf.net_out :=
  {| tf.neglogp_out := [0; 0]; tf.entropy_out := [1; 1]; tf.vf_out := [0; 0] |}.

(** A stand-in framework: a session without state, a network that always
    answers [net], constant gradients. *)
Definition forward (m : ppo.policy_model) (th : unit) (td : tf.feed_dict)
  : tf.net_out := net.
Definition autodiff (l : tf.tensor) (v : tf.variables) (th : unit)
           (td : tf.feed_dict) : list R := [3; 4].
Definition allreduce_mean (c : tf.communicator) (w : Q) (g : list R)
  : list R := g.
Definition adam_update (lr : R) (eps : Q) (g : list R) (th : unit) : unit :=
  th.

Definition kw : ppo.kwargs :=
  {| ppo.nbatch_act := 1; ppo.nbatch_train := 2; ppo.nsteps := 2;
     ppo.ent_coef := 0.01; ppo.vf_coef := 0.5;
     ppo.max_grad_norm := Some 0.5%Q; ppo.mpi_rank_weight := 1%Q;
     ppo.comm := None; ppo.microbatch_size := None |}.

End sample.

(** * Properties *)

Unset Implicit Arguments.

(** ** Lists, broadcasting and evaluation *)

Lemma zip_with_length (T U V : Type) (f : T -> U -> V) (u : list T) (v : list U) :
  length (zip_with f u v) = Nat.min (length u) (length v).
Proof.
  revert v; induction u as [|a u IH]; intros [|b v]; simpl; auto.
Qed.

Lemma broadcast2_same_length (f : R -> R -> R) (u v : list R) :
  length u = length v -> broadcast2 f u v = Some (zip_with f u v).
Proof.
  intros H. unfold broadcast2. rewrite H, Nat.eqb_refl. reflexivity.
Qed.

Lemma Q2R_half : Q2R 0.5 = / 2.
Proof. unfold Q2R; simpl. lra. Qed.

Lemma Q2R_one : Q2R 1.0 = 1.
Proof. unfold Q2R; simpl. lra. Qed.

Lemma clip_bounds (t lo hi : R) :
  lo <= hi -> lo <= tf.clip t lo hi <= hi.
Proof.
  intros H. unfold tf.clip. split.
  - apply Rmax_r.
  - apply Rmax_lub; [apply Rmin_r | exact H].
Qed.

(** Side conditions on lengths of element-wise expressions. *)
Ltac len :=
  repeat (rewrite ?length_map, ?zip_with_length); simpl; lia.

(** Evaluation of a graph whose leaves are fed as the context says. *)
Ltac eval_graph :=
  repeat (cbn [tf.eval obind option_map tf.lift1 tf.mean_value];
          repeat match goal with
                 | H : tf.feed_get _ _ = Some _ |- _ => rewrite H
                 end;
          cbn [tf.lift2];
          repeat rewrite broadcast2_same_length by len).

Ltac unfold_graph :=
  unfold ppo.loss, ppo.pg_loss, ppo.vf_loss, ppo.approxkl, ppo.clipfrac,
    ppo.pg_losses, ppo.pg_losses2, ppo.vf_losses1, ppo.vf_losses2,
    ppo.vpredclipped, ppo.vpred, ppo.ratio, ppo.entropy, ppo.neglogpac,
    ppo.A, ppo.ADV, ppo.R_, ppo.OLDNEGLOGPAC, ppo.OLDVPRED, ppo.LR,
    ppo.clip_range.

(** ** Values of the five statistics on a fed batch *)

Lemma pg_loss_vector (c : R) (adv old new : list R) :
  length old = length adv -> length new = length adv ->
  zip_with Rmax
    (zip_with Rmult (map Ropp adv) (map Rtrigo_def.exp (zip_with Rminus old new)))
    (zip_with Rmult (map Ropp adv)
       (map (fun x => Rmax x (1 - c))
          (map (fun x => Rmin x (1 + c))
             (map Rtrigo_def.exp (zip_with Rminus old new)))))
  = zip_with3 (formula.pg_term c) adv old new.
Proof.
  revert old new.
  induction adv as [|a adv IH]; intros [|o old] [|n new] H1 H2;
    simpl in *; try discriminate; auto.
  f_equal. apply IH; lia.
Qed.

Lemma vf_loss_vector (c : R) (vp old ret : list R) :
  length old = length vp -> length ret = length vp ->
  zip_with Rmax
    (map (fun x => x * x) (zip_with Rminus vp ret))
    (map (fun x => x * x)
       (zip_with Rminus
          (zip_with Rplus old
             (map (fun x => Rmax x (- c))
                (map (fun x => Rmin x c) (zip_with Rminus vp old))))
          ret))
  = zip_with3 (formula.vf_term c) vp old ret.
Proof.
  revert old ret.
  induction vp as [|v vp IH]; intros [|o old] [|r ret] H1 H2;
    simpl in *; try discriminate; auto.
  f_equal. apply IH; lia.
Qed.

Lemma approxkl_vector (new old : list R) :
  map (fun x => x * x) (zip_with Rminus new old)
  = zip_with formula.kl_term new old.
Proof.
  revert old; induction new as [|n new IH]; intros [|o old]; simpl; auto.
  f_equal. apply IH.
Qed.

Lemma clipfrac_vector (c : R) (old new : list R) :
  map (fun x => tf.gt_ind x c)
      (map Rabs
         (map (fun x => x - 1)
            (map Rtrigo_def.exp (zip_with Rminus old new))))
  = map (fun r => tf.gt_ind (Rabs (r - 1)) c)
        (zip_with (fun o n => Rtrigo_def.exp (o - n)) old new).
Proof.
  revert new; induction old as [|o old IH]; intros [|n new]; simpl; auto.
  f_equal. apply IH.
Qed.

Section Stats.
Variables (net : tf.net_out) (td : tf.feed_dict).
Variables (adv ret oldneglogp oldvpred : list R) (c : R).
Hypothesis B : formula.batch net td adv ret oldneglogp oldvpred c.

Lemma eval_pg_loss :
  tf.eval net td ppo.pg_loss
  = Some (tf.Scalar
            (np.mean (zip_with3 (formula.pg_term c) adv oldneglogp
                                (tf.neglogp_out net)))).
Proof.
  destruct B. unfold_graph. eval_graph. rewrite Q2R_one.
  rewrite pg_loss_vector by assumption. reflexivity.
Qed.

Lemma eval_vf_loss :
  tf.eval net td ppo.vf_loss
  = Some (tf.Scalar
            (/ 2 * np.mean (zip_with3 (formula.vf_term c) (tf.vf_out net)
                                      oldvpred ret))).
Proof.
  destruct B. unfold_graph. eval_graph. rewrite Q2R_half.
  rewrite vf_loss_vector by lia. reflexivity.
Qed.

Lemma eval_entropy :
  tf.eval net td ppo.entropy
  = Some (tf.Scalar (np.mean (tf.entropy_out net))).
Proof. reflexivity. Qed.

Lemma eval_approxkl :
  tf.eval net td ppo.approxkl
  = Some (tf.Scalar
            (/ 2 * np.mean (zip_with formula.kl_term (tf.neglogp_out net)
                                     oldneglogp))).
Proof.
  destruct B. unfold_graph. eval_graph. rewrite Q2R_half.
  rewrite approxkl_vector. reflexivity.
Qed.

Lemma eval_clipfrac :
  tf.eval net td ppo.clipfrac
  = Some (tf.Scalar
            (np.mean
               (map (fun r => tf.gt_ind (Rabs (r - 1)) c)
                    (zip_with (fun o n => Rtrigo_def.exp (o - n)) oldneglogp
                              (tf.neglogp_out net))))).
Proof.
  destruct B. unfold_graph. eval_graph. rewrite Q2R_one.
  rewrite clipfrac_vector. reflexivity.
Qed.

Lemma eval_loss (ent_coef vf_coef : Q) :
  tf.eval net td (ppo.loss ent_coef vf_coef)
  = Some (tf.Scalar
            (np.mean (zip_with3 (formula.pg_term c) adv oldneglogp
                                (tf.neglogp_out net))
             - np.mean (tf.entropy_out net) * Q2R ent_coef
             + / 2 * np.mean (zip_with3 (formula.vf_term c) (tf.vf_out net)
                                        oldvpred ret) * Q2R vf_coef)).
Proof.
  unfold ppo.loss.
  cbn [tf.eval]. rewrite eval_pg_loss, eval_vf_loss, eval_entropy.
  reflexivity.
Qed.
End Stats.

Lemma sample_batch :
  formula.batch sample.net sample.td [1; -1] [1; 3] [0; 0] [0; 0] 0.2.
Proof. constructor; reflexivity. Qed.

(** ** The policy-gradient loss *)

(** C1.  [pg_loss] is the node [reduce_mean(maximum(-ADV * ratio,
    -ADV * clip_by_value(ratio, 1 - clip_range, 1 + clip_range)))] with
    [ratio = exp(OLDNEGLOGPAC - neglogpac)]; on a fed batch it evaluates to
    the mean of the per-sample clipped surrogate; and for a clip range
    [c >= 0] each per-sample term is bounded through the clip range whatever
    the ratio is: it is at least [-adv * (1 + c)] for a non-negative advantage
    and at least [-adv * (1 - c)] for a non-positive one. *)
Theorem C1_pg_loss_clipped_surrogate
        (net : tf.net_out) (td : tf.feed_dict)
        (adv ret oldneglogp oldvpred : list R) (c : R) :
  formula.batch net td adv ret oldneglogp oldvpred c ->
  ppo.ratio = tf.exp (ppo.OLDNEGLOGPAC - ppo.neglogpac)
  /\ ppo.pg_loss
     = tf.reduce_mean
         (tf.maximum (- ppo.ADV * ppo.ratio)
                     (- ppo.ADV * tf.clip_by_value ppo.ratio
                                    (tf.Const 1.0 - ppo.clip_range)
                                    (tf.Const 1.0 + ppo.clip_range)))
  /\ tf.eval net td ppo.pg_loss
     = Some (tf.Scalar
               (np.mean (zip_with3 (formula.pg_term c) adv oldneglogp
                                   (tf.neglogp_out net))))
  /\ (0 <= c ->
      forall a o n : R,
        (0 <= a -> - a * (1 + c) <= formula.pg_term c a o n) /\
        (a <= 0 -> - a * (1 - c) <= formula.pg_term c a o n)).
Proof.
  intros B.
  split; [reflexivity|]. split; [reflexivity|]. split.
  - eapply eval_pg_loss; eassumption.
  - intros Hc0 a o n. unfold formula.pg_term.
    set (r := Rtrigo_def.exp (o - n)).
    assert (Hb : 1 - c <= tf.clip r (1 - c) (1 + c) <= 1 + c)
      by (apply clip_bounds; lra).
    assert (Hm : - a * tf.clip r (1 - c) (1 + c)
                 <= Rmax (- a * r) (- a * tf.clip r (1 - c) (1 + c)))
      by apply Rmax_r.
    split; intros Ha; nra.
Qed.

Lemma C1_pg_loss_clipped_surrogate_witness :
  tf.eval sample.net sample.td ppo.pg_loss
  = Some (tf.Scalar
            (np.mean (zip_with3 (formula.pg_term 0.2) [1; -1] [0; 0] [0; 1])))
  /\ - 1 * (1 + 0.2) <= formula.pg_term 0.2 1 0 1
  /\ - (-1) * (1 - 0.2) <= formula.pg_term 0.2 (-1) 0 1.
Proof.
  pose proof (C1_pg_loss_clipped_surrogate sample.net sample.td
                [1; -1] [1; 3] [0; 0] [0; 0] 0.2 sample_batch)
    as (_ & _ & He & Hb).
  split; [exact He|].
  split; [apply (Hb ltac:(lra) 1 0 1); lra | apply (Hb ltac:(lra) (-1) 0 1); lra].
Defined.

(** ** The value loss *)

(** C2.  [vf_loss] is [.5 * reduce_mean(maximum(square(vpred - R),
    square(vpredclipped - R)))] with [vpredclipped = OLDVPRED +
    clip_by_value(vpred - OLDVPRED, -clip_range, clip_range)]; on a fed batch
    it evaluates to half the mean of the element-wise maximum of the
    unclipped and clipped squared errors against the returns. *)
Theorem C2_vf_loss_clipped_squared_error
        (net : tf.net_out) (td : tf.feed_dict)
        (adv ret oldneglogp oldvpred : list R) (c : R) :
  formula.batch net td adv ret oldneglogp oldvpred c ->
  ppo.vpredclipped
  = (ppo.OLDVPRED
     + tf.clip_by_value (ppo.vpred - ppo.OLDVPRED)
                        (- ppo.clip_range) ppo.clip_range)%tensor
  /\ ppo.vf_loss
     = (tf.Const 0.5
        * tf.reduce_mean
            (tf.maximum (tf.square (ppo.vpred - ppo.R_))
                        (tf.square (ppo.vpredclipped - ppo.R_))))%tensor
  /\ tf.eval net td ppo.vf_loss
     = Some (tf.Scalar
               (0.5 * np.mean (zip_with3 (formula.vf_term c) (tf.vf_out net)
                                         oldvpred ret))).
Proof.
  intros B.
  split; [reflexivity|]. split; [reflexivity|].
  erewrite eval_vf_loss by eassumption.
  do 2 f_equal. lra.
Qed.

Lemma C2_vf_loss_clipped_squared_error_witness :
  tf.eval sample.net sample.td ppo.vf_loss
  = Some (tf.Scalar
            (0.5 * np.mean (zip_with3 (formula.vf_term 0.2) [2; 0] [0; 0]
                                      [1; 3]))).
Proof.
  apply (C2_vf_loss_clipped_squared_error sample.net sample.td
           [1; -1] [1; 3] [0; 0] [0; 0] 0.2 sample_batch).
Defined.

(** ** The total loss *)

(** C3.  The tensor differentiated for the update is [pg_loss - entropy *
    ent_coef + vf_loss * vf_coef] and nothing else, [entropy] being the mean
    over the batch of the policy entropy; on a fed batch its value is the
    policy loss minus [ent_coef] times the entropy plus [vf_coef] times the
    value loss.  The train op applies, with the trainer, exactly the
    gradients of this tensor with respect to the trainable variables of
    ['ppo2_model'] (clipped by global norm when [max_grad_norm] is given),
    and running it moves the session by the trainer's step on them. *)
Theorem C3_total_loss
        (theta : Type)
        (autodiff :
           tf.tensor -> tf.variables -> theta -> tf.feed_dict -> list R)
        (allreduce_mean : tf.communicator -> Q -> list R -> list R)
        (adam_update : R -> Q -> list R -> theta -> theta)
        (MPI : option ppo.mpi_module) (kw : ppo.kwargs)
        (net : tf.net_out) (td : tf.feed_dict)
        (adv ret oldneglogp oldvpred : list R) (c : R) :
  formula.batch net td adv ret oldneglogp oldvpred c ->
  let self := fst (ppo.__init__ MPI kw) in
  let total :=
    (ppo.pg_loss - ppo.entropy * tf.Const (ppo.ent_coef kw)
     + ppo.vf_loss * tf.Const (ppo.vf_coef kw))%tensor in
  let raw := tf.compute_gradients (ppo.trainer self) total (ppo.var self) in
  tf.objective (ppo.grads self) = total
  /\ ppo.entropy = tf.reduce_mean tf.pd_entropy
  /\ tf.eval net td ppo.entropy
     = Some (tf.Scalar (np.mean (tf.entropy_out net)))
  /\ (exists pg e v : R,
         tf.eval net td ppo.pg_loss = Some (tf.Scalar pg) /\
         tf.eval net td ppo.entropy = Some (tf.Scalar e) /\
         tf.eval net td ppo.vf_loss = Some (tf.Scalar v) /\
         tf.eval net td (tf.objective (ppo.grads self))
         = Some (tf.Scalar (pg - Q2R (ppo.ent_coef kw) * e
                            + Q2R (ppo.vf_coef kw) * v)))
  /\ ppo._train_op self
     = tf.apply_gradients (ppo.trainer self) (ppo.grads self) (ppo.var self)
  /\ ppo.var self = tf.trainable_variables "ppo2_model"
  /\ ppo.grads self
     = match ppo.max_grad_norm kw with
       | Some max_grad_norm => tf.clip_by_global_norm raw max_grad_norm
       | None => raw
       end
  /\ (forall th,
         ppo.eval_gradients autodiff allreduce_mean th td raw
         = autodiff total (tf.trainable_variables "ppo2_model") th td)
  /\ (forall th lr,
         tf.feed_get tf.self_LR td = Some (tf.FScalar lr) ->
         ppo.run_op autodiff allreduce_mean adam_update net th td
                    (ppo._train_op self) th
         = Some (adam_update lr 1e-5%Q
                   (ppo.eval_gradients autodiff allreduce_mean th td
                                       (ppo.grads self))
                   th)).
Proof.
  intros B self total raw.
  assert (Hobj : tf.objective (ppo.grads self)
                 = ppo.loss (ppo.ent_coef kw) (ppo.vf_coef kw)).
  { subst self. unfold ppo.__init__. simpl.
    destruct (ppo.max_grad_norm kw); reflexivity. }
  split; [exact Hobj|]. split; [reflexivity|]. split; [reflexivity|].
  split.
  { do 3 eexists.
    split; [eapply eval_pg_loss; eassumption|].
    split; [reflexivity|].
    split; [eapply eval_vf_loss; eassumption|].
    rewrite Hobj. erewrite eval_loss by eassumption.
    do 2 f_equal. cbn [tf.mean_value]. ring. }
  split; [reflexivity|]. split; [reflexivity|].
  split.
  { subst raw total self. unfold ppo.__init__. simpl.
    destruct (ppo.max_grad_norm kw); reflexivity. }
  split; [reflexivity|].
  intros th lr HLR.
  change (ppo._train_op self)
    with (tf.apply_gradients (tf.AdamOptimizer ppo.LR 1e-5)
                             (ppo.grads self) (ppo.var self)).
  cbn [ppo.run_op]. unfold ppo.LR. cbn [tf.eval]. rewrite HLR. reflexivity.
Qed.

Lemma C3_total_loss_witness :
  (exists x : R,
      tf.eval sample.net sample.td
              (tf.objective (ppo.grads (fst (ppo.__init__ None sample.kw))))
      = Some (tf.Scalar x))
  /\ ppo.run_op sample.autodiff sample.allreduce_mean sample.adam_update
                sample.net tt sample.td
                (ppo._train_op (fst (ppo.__init__ None sample.kw))) tt
     = Some (sample.adam_update 1e-3 1e-5
               (ppo.eval_gradients sample.autodiff sample.allreduce_mean tt
                  sample.td (ppo.grads (fst (ppo.__init__ None sample.kw))))
               tt).
Proof.
  destruct (C3_total_loss unit sample.autodiff sample.allreduce_mean
              sample.adam_update None sample.kw sample.net sample.td
              [1; -1] [1; 3] [0; 0] [0; 0] 0.2 sample_batch)
    as (_ & _ & _ & (pg & e & v & _ & _ & _ & H) & _ & _ & _ & _ & Hrun).
  split; [eexists; exact H|].
  apply (Hrun tt 1e-3 eq_refl).
Defined.

(** ** numpy statistics *)

Lemma sum_const (a : R) (l : list R) :
  (forall x, In x l -> x = a) -> np.sum l = INR (length l) * a.
Proof.
  induction l as [|x l IH]; intros H.
  - simpl. lra.
  - change (np.sum (x :: l)) with (x + np.sum l).
    rewrite IH by (intros y Hy; apply H; right; exact Hy).
    rewrite (H x) by (left; reflexivity).
    cbn [length]. rewrite S_INR. lra.
Qed.

Lemma INR_length_nonzero (l : list R) : l <> [] -> INR (length l) <> 0.
Proof.
  destruct l as [|x l]; [congruence|]. intros _.
  apply not_0_INR. simpl. lia.
Qed.

Lemma mean_const (a : R) (l : list R) :
  l <> [] -> (forall x, In x l -> x = a) -> np.mean l = a.
Proof.
  intros Hne H. unfold np.mean. rewrite (sum_const a) by exact H.
  field. apply INR_length_nonzero; exact Hne.
Qed.

Lemma std_nonneg (l : list R) : 0 <= np.std l.
Proof. apply sqrt_pos. Qed.

Lemma std_all_equal (l : list R) :
  (forall x y, In x l -> In y l -> x = y) -> np.std l = 0.
Proof.
  intros H. unfold np.std.
  replace (np.mean (map (fun x => (x - np.mean l) * (x - np.mean l)) l))
    with 0; [apply sqrt_0|].
  destruct l as [|a l].
  - unfold np.mean. simpl. lra.
  - set (l0 := a :: l) in *.
    assert (Hm : np.mean l0 = a).
    { apply mean_const; [discriminate|].
      intros x Hx. apply H; [exact Hx | left; reflexivity]. }
    symmetry. apply mean_const; [discriminate|].
    intros y Hy. apply in_map_iff in Hy as (x & <- & Hx).
    rewrite Hm, (H x a Hx (or_introl eq_refl)). ring.
Qed.

Lemma std_nil : np.std [] = 0.
Proof. apply std_all_equal. intros x y []. Qed.



(** ** The feed dictionary of [train] *)

Lemma train_td_map_feeds (lr clip_range : R) (obs : list (list R))
      (returns masks : list R) (actions : list (list R))
      (values neglogpacs : list R) (states : option (list (list R)))
      (advs : list R) :
  np.subtract returns values = Some advs ->
  exists td,
    ppo.train_td_map lr clip_range obs returns masks actions values neglogpacs
                     states = Some td
    /\ tf.feed_get tf.self_ADV td = Some (tf.FVector (ppo.normalize advs))
    /\ tf.feed_get tf.self_R td = Some (tf.FVector returns)
    /\ tf.feed_get tf.self_LR td = Some (tf.FScalar lr)
    /\ tf.feed_get tf.self_clip_range td = Some (tf.FScalar clip_range)
    /\ tf.feed_get tf.self_OLDNEGLOGPAC td = Some (tf.FVector neglogpacs)
    /\ tf.feed_get tf.self_OLDVPRED td = Some (tf.FVector values).
Proof.
  intros H. unfold ppo.train_td_map. rewrite H. cbn [obind].
  eexists. split; [reflexivity|].
  destruct states; repeat split; reflexivity.
Qed.

Lemma subtract_same_length (returns values : list R) :
  length values = length returns ->
  np.subtract returns values = Some (zip_with Rminus returns values).
Proof.
  intros H. apply broadcast2_same_length. symmetry. exact H.
Qed.

(** ** Model.train: what is fed and what is returned *)

Section Training.
Variable theta : Type.
Variable forward : ppo.policy_model -> theta -> tf.feed_dict -> tf.net_out.
Variable autodiff :
  tf.tensor -> tf.variables -> theta -> tf.feed_dict -> list R.
Variable allreduce_mean : tf.communicator -> Q -> list R -> list R.
Variable adam_update : R -> Q -> list R -> theta -> theta.

Local Abbreviation run :=
  (ppo.sess_run forward autodiff allreduce_mean adam_update).
Local Abbreviation train :=
  (ppo.train forward autodiff allreduce_mean adam_update).

(** C4, as amended.  Whenever [returns - values] is defined, [train] runs
    the session on a feed dictionary in which [ADV] holds the normalised
    advantages [(advs - mean(advs)) / (std(advs) + 1e-8)] of
    [advs = returns - values] (the element-wise difference for two vectors
    of one length), while [R] holds [returns] and [OLDVPRED] holds
    [values]. *)
Theorem C4_adv_fed_is_normalized_difference
        (self : ppo.Model) (th : theta) (lr clip_range : R)
        (obs : list (list R)) (returns masks : list R)
        (actions : list (list R)) (values neglogpacs : list R)
        (states : option (list (list R))) (advs : list R) :
  np.subtract returns values = Some advs ->
  exists td,
    ppo.train_td_map lr clip_range obs returns masks actions values
                     neglogpacs states = Some td
    /\ train self th lr clip_range obs returns masks actions values
             neglogpacs states
       = (r <- run self th
                (map ppo.FetchTensor (ppo.stats_list self)
                 ++ [ppo.FetchOp (ppo._train_op self)]) td ;;
          Some (removelast (fst r), snd r))
    /\ tf.feed_get tf.self_ADV td
       = Some (tf.FVector
                 (map (fun a => (a - np.mean advs) / (np.std advs + 1e-8))
                      advs))
    /\ (length values = length returns ->
        advs = zip_with Rminus returns values)
    /\ tf.feed_get tf.self_R td = Some (tf.FVector returns)
    /\ tf.feed_get tf.self_OLDVPRED td = Some (tf.FVector values).
Proof.
  intros H.
  destruct (train_td_map_feeds lr clip_range obs returns masks actions
              values neglogpacs states advs H)
    as (td & Htd & HADV & HR & _ & _ & _ & HV).
  exists td. split; [exact Htd|]. split.
  - unfold ppo.train. rewrite Htd. reflexivity.
  - split; [exact HADV|]. split; [|split; assumption].
    intros Hlen. rewrite subtract_same_length in H by exact Hlen.
    congruence.
Qed.

End Training.

Lemma C4_adv_fed_is_normalized_difference_witness :
  exists td,
    ppo.train_td_map 1e-3 0.2 [[0]; [0]] [1; 3] [0; 0] [[0]; [0]] [0; 0]
                     [0; 0] None = Some td
    /\ tf.feed_get tf.self_ADV td
       = Some (tf.FVector (ppo.normalize (zip_with Rminus [1; 3] [0; 0]))).
Proof.
  destruct (C4_adv_fed_is_normalized_difference
              unit sample.forward sample.autodiff sample.allreduce_mean
              sample.adam_update (fst (ppo.__init__ None sample.kw)) tt
              1e-3 0.2 [[0]; [0]] [1; 3] [0; 0] [[0]; [0]] [0; 0] [0; 0] None
              (zip_with Rminus [1; 3] [0; 0]) eq_refl)
    as (td & Htd & _ & HADV & _).
  exists td. split; [exact Htd | exact HADV].
Defined.

(** C4, as stated, fails: for returns [1; 3] and values [0; 0] the raw
    advantages [returns - values] are defined, but [ADV] is not fed them. *)
Lemma C4_counterexample :
  exists advs td,
    np.subtract [1; 3] [0; 0] = Some advs
    /\ ppo.train_td_map 1e-3 0.2 [[0]; [0]] [1; 3] [0; 0] [[0]; [0]] [0; 0]
                        [0; 0] None = Some td
    /\ tf.feed_get tf.self_ADV td <> Some (tf.FVector advs).
Proof.
  exists [1 - 0; 3 - 0]. eexists.
  split; [reflexivity|]. split; [reflexivity|].
  cbn [tf.feed_get tf.placeholder_eqb].
  unfold ppo.normalize. cbn [map].
  intros Heq. injection Heq as H1 _.
  set (l := [1 - 0; 3 - 0]) in *.
  assert (Hm : np.mean l = 2) by (unfold np.mean, np.sum, l; simpl; lra).
  pose proof (std_nonneg l) as Hs.
  rewrite Hm in H1.
  assert (Hd : 0 < np.std l + 1e-8) by lra.
  apply (Rmult_eq_compat_r (np.std l + 1e-8)) in H1.
  unfold Rdiv in H1. rewrite Rmult_assoc, Rinv_l, Rmult_1_r in H1 by lra.
  lra.
Qed.


(** ** Identity of graph nodes *)

Lemma placeholder_eqb_eq (p q : tf.placeholder) :
  tf.placeholder_eqb p q = true <-> p = q.
Proof. destruct p, q; simpl; split; congruence. Qed.

Lemma Q_eqb_eq (a b : Q) : tf.Q_eqb a b = true <-> a = b.
Proof.
  destruct a as [an ad], b as [bn bd]. unfold tf.Q_eqb. simpl.
  rewrite andb_true_iff, Z.eqb_eq, Pos.eqb_eq.
  split; [intros [-> ->]; reflexivity | intros H; inversion H; auto].
Qed.

Lemma tensor_eqb_eq (s t : tf.tensor) : tf.tensor_eqb s t = true <-> s = t.
Proof.
  revert t.
  induction s; intros t; destruct t; simpl;
    try (split; [discriminate | congruence]);
    try (split; reflexivity);
    rewrite ?andb_true_iff, ?placeholder_eqb_eq, ?Q_eqb_eq;
    repeat match goal with
           | IH : forall t, tf.tensor_eqb ?a t = true <-> _ |- _ =>
               rewrite IH; clear IH
           end;
    (split; [intuition congruence | intros H; inversion H; auto]).
Qed.

(** ** One training step of the model [__init__] builds *)

Lemma objective_of_init (MPI : option ppo.mpi_module) (kw : ppo.kwargs) :
  tf.objective (ppo.grads (fst (ppo.__init__ MPI kw)))
  = ppo.loss (ppo.ent_coef kw) (ppo.vf_coef kw).
Proof.
  unfold ppo.__init__. simpl. destruct (ppo.max_grad_norm kw); reflexivity.
Qed.

Section Step.
Variable theta : Type.
Variable forward : ppo.policy_model -> theta -> tf.feed_dict -> tf.net_out.
Variable autodiff :
  tf.tensor -> tf.variables -> theta -> tf.feed_dict -> list R.
Variable allreduce_mean : tf.communicator -> Q -> list R -> list R.
Variable adam_update : R -> Q -> list R -> theta -> theta.

Variables (MPI : option ppo.mpi_module) (kw : ppo.kwargs).

Local Abbreviation self :=
  (fst (ppo.__init__ MPI kw)).
Local Abbreviation run :=
  (ppo.sess_run forward autodiff allreduce_mean adam_update).
Local Abbreviation train :=
  (ppo.train forward autodiff allreduce_mean adam_update).
Local Abbreviation fetches :=
  (map ppo.FetchTensor (ppo.stats_list self)
   ++ [ppo.FetchOp (ppo._train_op self)]).

(** A run of the fetches of [train] that succeeds returns the values of
    the five statistics, in the order of [stats_list], then [None]. *)
Lemma run_inv (th : theta) (td : tf.feed_dict)
      (out : list ppo.fetched) (th' : theta) :
  run self th fetches td = Some (out, th') ->
  let net := forward (ppo.train_model self) th td in
  exists pg vf ent kl cf,
    tf.eval net td ppo.pg_loss = Some pg
    /\ tf.eval net td ppo.vf_loss = Some vf
    /\ tf.eval net td ppo.entropy = Some ent
    /\ tf.eval net td ppo.approxkl = Some kl
    /\ tf.eval net td ppo.clipfrac = Some cf
    /\ out = [ppo.Fetched pg; ppo.Fetched vf; ppo.Fetched ent;
              ppo.Fetched kl; ppo.Fetched cf; ppo.PyNone].
Proof.
  intros H net. unfold run, ppo.sess_run in H. fold net in H.
  unfold fetches in H.
  change (ppo.stats_list self)
    with [ppo.pg_loss; ppo.vf_loss; ppo.entropy; ppo.approxkl; ppo.clipfrac]
    in H.
  cbn [map app ppo.run_fetches] in H.
  destruct (tf.eval net td ppo.pg_loss) as [pg|]; [|discriminate].
  destruct (tf.eval net td ppo.vf_loss) as [vf|]; [|discriminate].
  destruct (tf.eval net td ppo.entropy) as [ent|]; [|discriminate].
  destruct (tf.eval net td ppo.approxkl) as [kl|]; [|discriminate].
  destruct (tf.eval net td ppo.clipfrac) as [cf|]; [|discriminate].
  cbn [obind] in H.
  destruct (ppo.run_op autodiff allreduce_mean adam_update net th td
                       (ppo._train_op self) th) as [th1|]; [|discriminate].
  cbn [obind fst snd] in H. injection H as <- _.
  exists pg, vf, ent, kl, cf. repeat split; reflexivity.
Qed.

(** On a well-shaped batch with a scalar learning rate the run succeeds. *)
Lemma run_batch (th : theta) (td : tf.feed_dict)
      (adv ret oldneglogp oldvpred : list R) (c lr : R) :
  let net := forward (ppo.train_model self) th td in
  formula.batch net td adv ret oldneglogp oldvpred c ->
  tf.feed_get tf.self_LR td = Some (tf.FScalar lr) ->
  exists pg vf ent cf,
    run self th fetches td
    = Some ([ppo.Fetched (tf.Scalar pg); ppo.Fetched (tf.Scalar vf);
             ppo.Fetched (tf.Scalar ent);
             ppo.Fetched
               (tf.Scalar
                  (/ 2 * np.mean (zip_with formula.kl_term
                                           (tf.neglogp_out net) oldneglogp)));
             ppo.Fetched (tf.Scalar cf); ppo.PyNone],
            adam_update lr 1e-5
              (ppo.eval_gradients autodiff allreduce_mean th td
                                  (ppo.grads self))
              th).
Proof.
  intros net B HLR. unfold run, ppo.sess_run. fold net.
  unfold fetches.
  change (ppo.stats_list self)
    with [ppo.pg_loss; ppo.vf_loss; ppo.entropy; ppo.approxkl; ppo.clipfrac].
  cbn [map app ppo.run_fetches].
  rewrite (eval_pg_loss _ _ _ _ _ _ _ B), (eval_vf_loss _ _ _ _ _ _ _ B),
    (eval_entropy net td), (eval_approxkl _ _ _ _ _ _ _ B),
    (eval_clipfrac _ _ _ _ _ _ _ B).
  cbn [obind].
  change (ppo._train_op self)
    with (tf.apply_gradients (tf.AdamOptimizer ppo.LR 1e-5)
                             (ppo.grads self) (ppo.var self)).
  cbn [ppo.run_op]. unfold ppo.LR. cbn [tf.eval]. rewrite HLR.
  cbn [obind fst snd ppo.run_fetches].
  do 4 eexists. reflexivity.
Qed.
End Step.

Lemma train_td_map_batch (net : tf.net_out) (lr clip_range : R)
      (obs : list (list R)) (returns masks : list R)
      (actions : list (list R)) (values neglogpacs : list R)
      (states : option (list (list R))) (td : tf.feed_dict) :
  ppo.train_td_map lr clip_range obs returns masks actions values neglogpacs
                   states = Some td ->
  length values = length returns ->
  length neglogpacs = length returns ->
  length (tf.neglogp_out net) = length returns ->
  length (tf.entropy_out net) = length returns ->
  length (tf.vf_out net) = length returns ->
  formula.batch net td
                (ppo.normalize (zip_with Rminus returns values))
                returns neglogpacs values clip_range
  /\ tf.feed_get tf.self_LR td = Some (tf.FScalar lr).
Proof.
  intros Htd Hv Hn H1 H2 H3.
  destruct (train_td_map_feeds lr clip_range obs returns masks actions values
              neglogpacs states _ (subtract_same_length returns values Hv))
    as (td' & Htd' & HADV & HR & HLR & Hc & HO & HV).
  rewrite Htd in Htd'. injection Htd' as <-.
  assert (Hl : length (ppo.normalize (zip_with Rminus returns values))
               = length returns)
    by (unfold ppo.normalize; len).
  split; [|exact HLR].
  constructor; try assumption; rewrite Hl; congruence.
Qed.

Section Update.
Variable theta : Type.
Variable forward : ppo.policy_model -> theta -> tf.feed_dict -> tf.net_out.
Variable autodiff :
  tf.tensor -> tf.variables -> theta -> tf.feed_dict -> list R.
Variable allreduce_mean : tf.communicator -> Q -> list R -> list R.
Variable adam_update : R -> Q -> list R -> theta -> theta.

Local Abbreviation train :=
  (ppo.train forward autodiff allreduce_mean adam_update).

(** C6.  [approxkl] is the node [.5 * reduce_mean(square(neglogpac -
    OLDNEGLOGPAC))]; it is not among the nodes the differentiated loss is
    computed from; and every call of [train] that returns, returns exactly
    the values of [pg_loss], [vf_loss], [entropy], [approxkl], [clipfrac]
    in this order, named policy_loss, value_loss, policy_entropy,
    approxkl, clipfrac.  On a well-shaped batch the call does return, and
    its fourth entry is half the mean squared difference of the new and
    old negative log-probabilities. *)
Theorem C6_approxkl_diagnostic
        (MPI : option ppo.mpi_module) (kw : ppo.kwargs) (th : theta)
        (lr clip_range : R) (obs : list (list R)) (returns masks : list R)
        (actions : list (list R)) (values neglogpacs : list R)
        (states : option (list (list R))) :
  let self := fst (ppo.__init__ MPI kw) in
  ppo.approxkl
  = (tf.Const 0.5
     * tf.reduce_mean (tf.square (ppo.neglogpac - ppo.OLDNEGLOGPAC)))%tensor
  /\ tf.occurs ppo.approxkl (tf.objective (ppo.grads self)) = false
  /\ ppo.loss_names self
     = ["policy_loss"; "value_loss"; "policy_entropy"; "approxkl";
        "clipfrac"]%string
  /\ ppo.stats_list self
     = [ppo.pg_loss; ppo.vf_loss; ppo.entropy; ppo.approxkl; ppo.clipfrac]
  /\ (forall out th',
         train self th lr clip_range obs returns masks actions values
               neglogpacs states = Some (out, th') ->
         exists td pg vf ent kl cf,
           ppo.train_td_map lr clip_range obs returns masks actions values
                            neglogpacs states = Some td
           /\ tf.eval (forward (ppo.train_model self) th td) td ppo.pg_loss
              = Some pg
           /\ tf.eval (forward (ppo.train_model self) th td) td ppo.vf_loss
              = Some vf
           /\ tf.eval (forward (ppo.train_model self) th td) td ppo.entropy
              = Some ent
           /\ tf.eval (forward (ppo.train_model self) th td) td ppo.approxkl
              = Some kl
           /\ tf.eval (forward (ppo.train_model self) th td) td ppo.clipfrac
              = Some cf
           /\ out = [ppo.Fetched pg; ppo.Fetched vf; ppo.Fetched ent;
                     ppo.Fetched kl; ppo.Fetched cf])
  /\ (forall td,
         ppo.train_td_map lr clip_range obs returns masks actions values
                          neglogpacs states = Some td ->
         let net := forward (ppo.train_model self) th td in
         length values = length returns ->
         length neglogpacs = length returns ->
         length (tf.neglogp_out net) = length returns ->
         length (tf.entropy_out net) = length returns ->
         length (tf.vf_out net) = length returns ->
         exists pg vf ent cf th',
           train self th lr clip_range obs returns masks actions values
                 neglogpacs states
           = Some ([ppo.Fetched (tf.Scalar pg); ppo.Fetched (tf.Scalar vf);
                    ppo.Fetched (tf.Scalar ent);
                    ppo.Fetched
                      (tf.Scalar
                         (0.5 * np.mean
                                  (zip_with formula.kl_term
                                            (tf.neglogp_out net)
                                            neglogpacs)));
                    ppo.Fetched (tf.Scalar cf)], th')).
Proof.
  intros self. subst self.
  split; [reflexivity|]. split.
  { rewrite objective_of_init. reflexivity. }
  split; [reflexivity|]. split; [reflexivity|]. split.
  - intros out th' H. unfold ppo.train in H.
    destruct (ppo.train_td_map lr clip_range obs returns masks actions
                               values neglogpacs states) as [td|];
      [|discriminate].
    cbn [obind] in H.
    destruct (ppo.sess_run forward autodiff allreduce_mean adam_update
                _ th _ td) as [[out0 th0]|] eqn:Hrun; [|discriminate].
    cbn [obind fst snd] in H. injection H as <- <-.
    apply run_inv in Hrun.
    destruct Hrun as (pg & vf & ent & kl & cf & H1 & H2 & H3 & H4 & H5 & ->).
    exists td, pg, vf, ent, kl, cf. repeat split; assumption.
  - intros td Htd net Hv Hn H1 H2 H3. subst net.
    destruct (train_td_map_batch _ lr clip_range obs returns masks actions
                values neglogpacs states td Htd Hv Hn H1 H2 H3) as [B HLR].
    destruct (run_batch theta forward autodiff allreduce_mean adam_update
                MPI kw th td _ _ _ _ _ lr B HLR)
      as (pg & vf & ent & cf & Hrun).
    exists pg, vf, ent, cf. eexists.
    unfold ppo.train. rewrite Htd. cbn [obind].
    rewrite Hrun. cbn [obind fst snd removelast].
    do 8 f_equal. lra.
Qed.
End Update.

Lemma C6_approxkl_diagnostic_witness :
  exists pg vf ent cf th',
    ppo.train sample.forward sample.autodiff sample.allreduce_mean
              sample.adam_update (fst (ppo.__init__ None sample.kw)) tt
              1e-3 0.2 [[0]; [0]] [1; 3] [0; 0] [[0]; [0]] [0; 0] [0; 0] None
    = Some ([ppo.Fetched (tf.Scalar pg); ppo.Fetched (tf.Scalar vf);
             ppo.Fetched (tf.Scalar ent);
             ppo.Fetched
               (tf.Scalar
                  (0.5 * np.mean (zip_with formula.kl_term [0; 1] [0; 0])));
             ppo.Fetched (tf.Scalar cf)], th').
Proof.
  destruct (C6_approxkl_diagnostic
              unit sample.forward sample.autodiff sample.allreduce_mean
              sample.adam_update None sample.kw tt
              1e-3 0.2 [[0]; [0]] [1; 3] [0; 0] [[0]; [0]] [0; 0] [0; 0] None)
    as (_ & _ & _ & _ & _ & H).
  exact (H _ eq_refl eq_refl eq_refl eq_refl eq_refl eq_refl).
Defined.

(** What [tf.clip_by_global_norm] achieves: for a positive [clip_norm] the
    global norm of the clipped gradients is at most [clip_norm]. *)

Lemma sum_squares_nonneg (g : list R) : 0 <= np.sum (map (fun x => x * x) g).
Proof.
  induction g as [|x g IH]; simpl; [lra|]. nra.
Qed.

Lemma sum_squares_scale (k : R) (g : list R) :
  np.sum (map (fun x => x * x) (map (fun x => x * k) g))
  = k * k * np.sum (map (fun x => x * x) g).
Proof.
  induction g as [|x g IH]; simpl; [ring|].
  unfold np.sum in IH |- *. rewrite IH. ring.
Qed.

Lemma global_norm_scale (k : R) (g : list R) :
  0 <= k -> ppo.global_norm (map (fun x => x * k) g) = k * ppo.global_norm g.
Proof.
  intros Hk. unfold ppo.global_norm.
  rewrite sum_squares_scale.
  rewrite sqrt_mult by (try apply sum_squares_nonneg; nra).
  rewrite sqrt_square by exact Hk. reflexivity.
Qed.

Lemma sum_squares_zero (g : list R) :
  np.sum (map (fun x => x * x) g) = 0 -> forall x, In x g -> x = 0.
Proof.
  induction g as [|y g IH]; intros H x Hx; [contradiction|].
  change (y * y + np.sum (map (fun x => x * x) g) = 0) in H.
  pose proof (sum_squares_nonneg g) as Hg.
  assert (Hy : 0 <= y * y) by exact (Rle_0_sqr y).
  destruct Hx as [<-|Hx].
  - assert (E : y * y = 0) by lra.
    apply Rmult_integral in E. destruct E; assumption.
  - apply IH; [lra | exact Hx].
Qed.

Lemma global_norm_zero (g : list R) :
  ppo.global_norm g = 0 -> forall x, In x g -> x = 0.
Proof.
  intros H. apply sum_squares_zero.
  apply sqrt_eq_0; [apply sum_squares_nonneg | exact H].
Qed.

(** For a positive [clip_norm] TensorFlow's scale is
    [clip_norm / max(global_norm, clip_norm)]. *)
Lemma clip_global_pos (g : list R) (clip_norm : R) :
  0 < clip_norm ->
  ppo.clip_global g clip_norm
  = map (fun x => x * clip_norm / Rmax (ppo.global_norm g) clip_norm) g.
Proof.
  intros Hc. unfold ppo.clip_global. cbv zeta.
  assert (Hn : 0 <= ppo.global_norm g) by apply sqrt_pos.
  destruct (Req_dec_T (ppo.global_norm g) 0) as [E|E].
  - apply map_ext_in. intros x Hx.
    rewrite (global_norm_zero g E x Hx). unfold Rdiv. ring.
  - assert (Hpos : 0 < ppo.global_norm g) by lra.
    apply map_ext. intros x.
    destruct (Rle_dec (ppo.global_norm g) clip_norm) as [Hle|Hgt].
    + rewrite Rmax_right by exact Hle.
      rewrite Rmin_right
        by (unfold Rdiv; rewrite !Rmult_1_l;
            apply Rinv_le_contravar; assumption).
      field. lra.
    + rewrite Rmax_left by lra.
      rewrite Rmin_left
        by (unfold Rdiv; rewrite !Rmult_1_l;
            apply Rinv_le_contravar; lra).
      field. lra.
Qed.

(** For a negative [clip_norm] the scale is 1: the entries pass through. *)
Lemma clip_global_neg (g : list R) (clip_norm : R) :
  clip_norm < 0 -> ppo.clip_global g clip_norm = g.
Proof.
  intros Hc. unfold ppo.clip_global. cbv zeta.
  assert (Hn : 0 <= 1 / ppo.global_norm g).
  { unfold Rdiv. rewrite Rmult_1_l.
    destruct (Req_dec_T (ppo.global_norm g) 0) as [E|E].
    - rewrite E, Rinv_0. lra.
    - apply Rlt_le, Rinv_0_lt_compat.
      pose proof (sqrt_pos (np.sum (map (fun x => x * x) g))).
      unfold ppo.global_norm in *. lra. }
  assert (Hi : 1 / clip_norm < 0)
    by (unfold Rdiv; rewrite Rmult_1_l; apply Rinv_lt_0_compat, Hc).
  rewrite Rmin_right by lra.
  rewrite <- (map_id g) at 2. apply map_ext. intros x. field. lra.
Qed.

Lemma clip_global_norm_le (g : list R) (clip_norm : R) :
  0 < clip_norm ->
  ppo.global_norm (ppo.clip_global g clip_norm) <= clip_norm.
Proof.
  intros Hc. rewrite clip_global_pos by exact Hc.
  set (n := ppo.global_norm g).
  assert (Hn : 0 <= n) by apply sqrt_pos.
  assert (Hm : 0 < Rmax n clip_norm)
    by (eapply Rlt_le_trans; [exact Hc | apply Rmax_r]).
  assert (Hle : n <= Rmax n clip_norm) by apply Rmax_l.
  rewrite (map_ext _ (fun x => x * (clip_norm / Rmax n clip_norm)))
    by (intros x; unfold Rdiv; ring).
  rewrite global_norm_scale
    by (apply Rlt_le, Rdiv_lt_0_compat; assumption).
  fold n.
  apply (Rmult_le_reg_r (Rmax n clip_norm)); [exact Hm|].
  replace (clip_norm / Rmax n clip_norm * n * Rmax n clip_norm)
    with (clip_norm * n) by (field; lra).
  nra.
Qed.

(** ** The optimizer and the gradients it applies *)

Section Gradients.
Variable theta : Type.
Variable forward : ppo.policy_model -> theta -> tf.feed_dict -> tf.net_out.
Variable autodiff :
  tf.tensor -> tf.variables -> theta -> tf.feed_dict -> list R.
Variable adam_update : R -> Q -> list R -> theta -> theta.

(** C5 (what the code does).  With MPI available, the trainer [__init__]
    builds is the plain [tf.train.AdamOptimizer(learning_rate=LR,
    epsilon=1e-5)], which does not average gradients across processes;
    the gradients it applies, and the whole result of [train], are the
    same whatever the MPI reduction is; the only use of the communicator
    is the initial [sync_from_root]. *)
Theorem C5_trainer_is_plain_adam
        (kw : ppo.kwargs)
        (allreduce_mean allreduce_mean' :
           tf.communicator -> Q -> list R -> list R) :
  let self := fst (ppo.__init__ (Some ppo.mpi4py_MPI) kw) in
  ppo.trainer self = tf.AdamOptimizer ppo.LR 1e-5
  /\ tf.averages_gradients_across_processes (ppo.trainer self) = false
  /\ ppo._train_op self
     = tf.apply_gradients (tf.AdamOptimizer ppo.LR 1e-5) (ppo.grads self)
                          (ppo.var self)
  /\ snd (ppo.__init__ (Some ppo.mpi4py_MPI) kw)
     = [ppo.initialize;
        ppo.sync_from_root
          (match ppo.comm kw with
           | None => Some tf.COMM_WORLD
           | Some c => Some c
           end)]
  /\ (forall th td,
         ppo.eval_gradients autodiff allreduce_mean th td (ppo.grads self)
         = ppo.eval_gradients autodiff allreduce_mean' th td
                              (ppo.grads self))
  /\ (forall th lr clip_range obs returns masks actions values neglogpacs
             states,
         ppo.train forward autodiff allreduce_mean adam_update self th lr
                   clip_range obs returns masks actions values neglogpacs
                   states
         = ppo.train forward autodiff allreduce_mean' adam_update self th lr
                     clip_range obs returns masks actions values neglogpacs
                     states).
Proof.
  intros self. subst self.
  assert (Hg : forall th td,
             ppo.eval_gradients autodiff allreduce_mean th td
               (ppo.grads (fst (ppo.__init__ (Some ppo.mpi4py_MPI) kw)))
             = ppo.eval_gradients autodiff allreduce_mean' th td
                 (ppo.grads (fst (ppo.__init__ (Some ppo.mpi4py_MPI) kw)))).
  { intros th td. unfold ppo.__init__. simpl.
    destruct (ppo.max_grad_norm kw); reflexivity. }
  split; [reflexivity|]. split; [reflexivity|]. split; [reflexivity|].
  split; [simpl; destruct (ppo.comm kw); reflexivity|].
  split; [exact Hg|].
  intros. unfold ppo.train.
  destruct (ppo.train_td_map lr clip_range obs returns masks actions values
                             neglogpacs states) as [td|]; [|reflexivity].
  cbn [obind]. unfold ppo.sess_run.
  change (ppo.stats_list (fst (ppo.__init__ (Some ppo.mpi4py_MPI) kw)))
    with [ppo.pg_loss; ppo.vf_loss; ppo.entropy; ppo.approxkl; ppo.clipfrac].
  change (ppo._train_op (fst (ppo.__init__ (Some ppo.mpi4py_MPI) kw)))
    with (tf.apply_gradients
            (tf.AdamOptimizer ppo.LR 1e-5)
            (ppo.grads (fst (ppo.__init__ (Some ppo.mpi4py_MPI) kw)))
            (ppo.var (fst (ppo.__init__ (Some ppo.mpi4py_MPI) kw)))).
  cbn [map app ppo.run_fetches ppo.run_op].
  rewrite Hg. reflexivity.
Qed.

Variable allreduce_mean : tf.communicator -> Q -> list R -> list R.

(** C7.  The gradients handed to [apply_gradients] are the gradients of
    the total loss clipped by global norm to [max_grad_norm] when
    [max_grad_norm] is not [None], and the unmodified gradients of the
    total loss when it is [None]; the clipping node is there if and only
    if [max_grad_norm] is not [None].  When run, the clipping node scales
    the gradients as TensorFlow does (for a non-zero [max_grad_norm]): with
    a positive [max_grad_norm] the global norm of the applied gradients is
    at most [max_grad_norm], with a negative one they pass through. *)
Theorem C7_gradient_clipping
        (MPI : option ppo.mpi_module) (kw : ppo.kwargs) :
  let self := fst (ppo.__init__ MPI kw) in
  let raw :=
    tf.compute_gradients (ppo.trainer self)
                         (ppo.loss (ppo.ent_coef kw) (ppo.vf_coef kw))
                         (tf.trainable_variables "ppo2_model") in
  let raw_value th td :=
    autodiff (ppo.loss (ppo.ent_coef kw) (ppo.vf_coef kw))
             (tf.trainable_variables "ppo2_model") th td in
  ppo._train_op self
  = tf.apply_gradients (ppo.trainer self) (ppo.grads self) (ppo.var self)
  /\ ppo.var self = tf.trainable_variables "ppo2_model"
  /\ ppo.grads self
     = match ppo.max_grad_norm kw with
       | Some max_grad_norm => tf.clip_by_global_norm raw max_grad_norm
       | None => raw
       end
  /\ ((exists clip_norm, ppo.grads self = tf.clip_by_global_norm raw clip_norm)
      <-> ppo.max_grad_norm kw <> None)
  /\ (ppo.max_grad_norm kw = None ->
      forall th td,
        ppo.eval_gradients autodiff allreduce_mean th td (ppo.grads self)
        = raw_value th td)
  /\ (forall max_grad_norm th td,
         ppo.max_grad_norm kw = Some max_grad_norm ->
         Q2R max_grad_norm <> 0 ->
         ppo.eval_gradients autodiff allreduce_mean th td (ppo.grads self)
         = map (fun x =>
                  x * (Q2R max_grad_norm
                       * Rmin (1 / ppo.global_norm (raw_value th td))
                              (1 / Q2R max_grad_norm)))
               (raw_value th td))
  /\ (forall max_grad_norm th td,
         ppo.max_grad_norm kw = Some max_grad_norm ->
         0 < Q2R max_grad_norm ->
         ppo.global_norm
           (ppo.eval_gradients autodiff allreduce_mean th td
                               (ppo.grads self))
         <= Q2R max_grad_norm)
  /\ (forall max_grad_norm th td,
         ppo.max_grad_norm kw = Some max_grad_norm ->
         Q2R max_grad_norm < 0 ->
         ppo.eval_gradients autodiff allreduce_mean th td (ppo.grads self)
         = raw_value th td).
Proof.
  intros self raw raw_value. subst raw raw_value self.
  unfold ppo.__init__. simpl.
  split; [reflexivity|]. split; [reflexivity|].
  destruct (ppo.max_grad_norm kw) as [m|].
  - split; [reflexivity|]. split; [|split; [|split; [|split]]].
    + split; [discriminate | intros _; exists m; reflexivity].
    + discriminate.
    + intros m' th td [= <-] _. reflexivity.
    + intros m' th td [= <-] Hpos. simpl.
      apply clip_global_norm_le. exact Hpos.
    + intros m' th td [= <-] Hneg. simpl.
      apply clip_global_neg. exact Hneg.
  - split; [reflexivity|]. split; [|split; [|split; [|split]]].
    + split; [intros [c Hc]; discriminate | congruence].
    + reflexivity.
    + intros m' th td [=].
    + intros m' th td [=].
    + intros m' th td [=].
Qed.
End Gradients.




Lemma C7_gradient_clipping_witness :
  ppo.grads (fst (ppo.__init__ None sample.kw))
  = tf.clip_by_global_norm
      (tf.compute_gradients (tf.AdamOptimizer ppo.LR 1e-5)
                            (ppo.loss 0.01 0.5)
                            (tf.trainable_variables "ppo2_model"))
      0.5
  /\ ppo.max_grad_norm sample.kw <> None
  /\ ppo.global_norm
       (ppo.eval_gradients sample.autodiff sample.allreduce_mean tt []
                           (ppo.grads (fst (ppo.__init__ None sample.kw))))
     <= Q2R 0.5
  /\ ppo.eval_gradients sample.autodiff sample.allreduce_mean tt []
                        (ppo.grads (fst (ppo.__init__ None sample.kw)))
     = map (fun x => x * (Q2R 0.5 * Rmin (1 / ppo.global_norm [3; 4])
                                         (1 / Q2R 0.5)))
           [3; 4].
Proof.
  destruct (C7_gradient_clipping unit sample.autodiff sample.allreduce_mean
              None sample.kw) as (_ & _ & Hg & Hiff & _ & Hv & Hn & _).
  split; [exact Hg|]. split; [apply Hiff; eexists; exact Hg|].
  split.
  - apply (Hn 0.5%Q tt [] eq_refl). unfold Q2R; simpl; lra.
  - apply (Hv 0.5%Q tt [] eq_refl). unfold Q2R; simpl; lra.
Defined.

(** ** The abstract policy class *)

Section PolicyStub.
Variables Session Space ActFun PyObject World : Type.

Local Abbreviation Policy :=
  (base.Policy Session Space ActFun).

(** C8.  Each of [initialize], [update], [get_action] and [get_td_map],
    on every instance, in every world and for all arguments, raises
    [NotImplementedError] and leaves the instance and the world as they
    were. *)
Theorem C8_policy_methods_raise_not_implemented
        (self : Policy) (w : World)
        (update_actor : bool) (kwargs : list (string * PyObject))
        (obs : base.ndarray R) (context : option (base.ndarray R))
        (apply_noise random_actions : bool) (env_num : Z) :
  base.initialize (self, w) = (inr base.NotImplementedError, (self, w))
  /\ base.update update_actor kwargs (self, w)
     = (inr base.NotImplementedError, (self, w))
  /\ base.get_action obs context apply_noise random_actions env_num (self, w)
     = (inr base.NotImplementedError, (self, w))
  /\ base.get_td_map (self, w) = (inr base.NotImplementedError, (self, w)).
Proof. repeat split. Qed.
End PolicyStub.

(** ** Policy._get_obs *)

Lemma firstn_exact (T : Type) (n : nat) (l : list T) :
  length l = n -> firstn n l = l.
Proof. intros <-. apply firstn_all. Qed.

Section GetObs.
Variable T : Type.

(** C10.  With [context = None], [_get_obs] returns [obs] itself, for every
    [obs] and [axis]; with a context it returns [np.concatenate((obs,
    context'), axis=axis)] where [context'] is [context.flatten()] when
    [axis == 0] and [context] otherwise.  For a rank-1 observation and
    axis 0 this is the observation's entries followed by all entries of
    the context. *)
Theorem C10_get_obs
        (obs : base.ndarray T) (axis : Z) :
  base._get_obs obs None axis = inl obs
  /\ (forall context,
         base._get_obs obs (Some context) axis
         = base.concatenate obs
             (if (axis =? 0)%Z then base.flatten context else context) axis)
  /\ (forall context,
         base._get_obs obs (Some context) 0
         = base.concatenate obs (base.flatten context) 0)
  /\ (forall context,
         axis <> 0%Z ->
         base._get_obs obs (Some context) axis
         = base.concatenate obs context axis)
  /\ (forall context n,
         base.shape obs = [n] ->
         base.well_formed obs -> base.well_formed context ->
         base._get_obs obs (Some context) 0
         = inl {| base.shape := [(n + base.size (base.shape context))%nat];
                  base.data := base.data obs ++ base.data context |}).
Proof.
  split; [reflexivity|]. split; [reflexivity|]. split; [reflexivity|].
  split.
  - intros context Hax. unfold base._get_obs.
    destruct (Z.eqb_spec axis 0) as [E|_]; [contradiction | reflexivity].
  - intros context n Hs Ho Hc. unfold base.well_formed in *.
    unfold base._get_obs, base.concatenate. rewrite Hs in *.
    simpl in *.
    rewrite !firstn_exact by lia.
    rewrite app_nil_r. reflexivity.
Qed.
End GetObs.

Lemma C10_get_obs_witness :
  base._get_obs {| base.shape := [2%nat]; base.data := [1; 2]%Z |}
                (Some {| base.shape := [1; 2]%nat; base.data := [3; 4]%Z |})
                0
  = inl {| base.shape := [4%nat]; base.data := [1; 2; 3; 4]%Z |}
  /\ base._get_obs {| base.shape := [2; 2]%nat; base.data := [1; 2; 3; 4]%Z |}
                   (Some {| base.shape := [2; 1]%nat; base.data := [5; 6]%Z |})
                   1
     = inl {| base.shape := [2; 3]%nat; base.data := [1; 2; 5; 3; 4; 6]%Z |}.
Proof.
  split.
  - apply (C10_get_obs Z {| base.shape := [2%nat]; base.data := [1; 2]%Z |} 0);
      reflexivity.
  - destruct (C10_get_obs Z
                {| base.shape := [2; 2]%nat; base.data := [1; 2; 3; 4]%Z |} 1)
      as (_ & _ & _ & H & _).
    rewrite H by discriminate. reflexivity.
Defined.

(** * Further properties of the code *)

(** ** numpy arrays: shapes and entry counts *)

Lemma shape_eqb_eq (s1 s2 : list nat) : base.shape_eqb s1 s2 = true -> s1 = s2.
Proof.
  revert s2; induction s1 as [|d1 r1 IH]; intros [|d2 r2]; simpl;
    try discriminate; auto.
  rewrite andb_true_iff, Nat.eqb_eq. intros [-> H]. f_equal. apply IH, H.
Qed.

Lemma normalize_axis_lt (axis : Z) (ndim k : nat) :
  base.normalize_axis axis ndim = Some k -> (k < ndim)%nat.
Proof.
  unfold base.normalize_axis.
  destruct (Z.leb_spec (- Z.of_nat ndim) axis) as [H1|]; [|discriminate].
  destruct (Z.ltb_spec axis (Z.of_nat ndim)) as [H2|]; [|discriminate].
  simpl. intros [= <-].
  destruct (Z.ltb_spec axis 0); lia.
Qed.

Lemma same_off_axis_sizes (k : nat) (s s' : list nat) :
  base.same_off_axis k s s' = true -> (k < length s)%nat ->
  (base.size (base.add_dim k (nth k s' O) s)
   = base.size (firstn k s)
     * (base.size (skipn k s) + base.size (skipn k s'))
   /\ base.size s = base.size (firstn k s) * base.size (skipn k s)
   /\ base.size s' = base.size (firstn k s) * base.size (skipn k s')
   /\ length (base.add_dim k (nth k s' O) s) = length s)%nat.
Proof.
  revert k s'.
  induction s as [|d r IH]; intros [|k'] [|d' r'] H Hk; simpl in *;
    try discriminate; try lia.
  - apply shape_eqb_eq in H. subst r'. simpl. repeat split; lia.
  - apply andb_true_iff in H as [Hd Hr]. apply Nat.eqb_eq in Hd. subst d'.
    destruct (IH k' r' Hr ltac:(lia)) as (E1 & E2 & E3 & E4).
    simpl. rewrite E1, E4. repeat split; nia.
Qed.

Section ArrayFacts.
Variable T : Type.

Lemma interleave_length (outer ca cb : nat) (da db : list T) :
  (length da = outer * ca)%nat -> (length db = outer * cb)%nat ->
  (length (base.interleave outer ca cb da db) = outer * (ca + cb))%nat.
Proof.
  revert da db.
  induction outer as [|n IH]; intros da db Ha Hb; simpl in *; [reflexivity|].
  rewrite !length_app, !length_firstn.
  rewrite IH by (rewrite length_skipn; lia).
  lia.
Qed.

Lemma concatenate_well_formed (a b r : base.ndarray T) (axis : Z) :
  base.well_formed a -> base.well_formed b ->
  base.concatenate a b axis = inl r ->
  base.well_formed r
  /\ length (base.data r) = (length (base.data a) + length (base.data b))%nat
  /\ length (base.shape r) = length (base.shape a).
Proof.
  unfold base.well_formed, base.concatenate. intros Ha Hb.
  destruct (Nat.eqb (length (base.shape a)) 0); [discriminate|].
  destruct (base.normalize_axis axis (length (base.shape a))) as [k|] eqn:Hk;
    [|discriminate].
  apply normalize_axis_lt in Hk.
  destruct (Nat.eqb (length (base.shape b)) (length (base.shape a)));
    [|discriminate].
  destruct (base.same_off_axis k (base.shape a) (base.shape b)) eqn:Hs;
    [|discriminate].
  simpl. intros [= <-]. simpl.
  destruct (same_off_axis_sizes k _ _ Hs Hk) as (E1 & E2 & E3 & E4).
  rewrite interleave_length by congruence.
  repeat split; [congruence | rewrite Ha, Hb, E2, E3; lia | exact E4].
Qed.

Lemma flatten_well_formed (a : base.ndarray T) :
  base.well_formed a -> base.well_formed (base.flatten a).
Proof. unfold base.well_formed. simpl. lia. Qed.

(** [_get_obs] keeps arrays consistent: from a well-formed observation and
    context, a result that is returned is well-formed, has the rank of the
    observation, and holds as many entries as the two together. *)
Theorem get_obs_well_formed
        (obs context r : base.ndarray T) (axis : Z) :
  base.well_formed obs -> base.well_formed context ->
  base._get_obs obs (Some context) axis = inl r ->
  base.well_formed r
  /\ length (base.data r)
     = (length (base.data obs) + length (base.data context))%nat
  /\ length (base.shape r) = length (base.shape obs).
Proof.
  intros Ho Hc H. unfold base._get_obs in H.
  destruct (axis =? 0)%Z.
  - apply (concatenate_well_formed obs (base.flatten context) r axis Ho
             (flatten_well_formed context Hc) H).
  - apply (concatenate_well_formed obs context r axis Ho Hc H).
Qed.

(** Error behaviour of [_get_obs] with a context: a rank-0 observation
    raises [ValueError]; with [axis = 0] an observation of rank 2 or more
    raises [ValueError] whatever the context is (the flattened context has
    rank 1); an axis outside [-ndim, ndim) raises [AxisError]; and a rank-1
    observation with [axis = 0] never raises. *)
Theorem get_obs_errors (obs context : base.ndarray T) (axis : Z) :
  (base.shape obs = [] ->
   base._get_obs obs (Some context) axis = inr base.ValueError)
  /\ ((2 <= length (base.shape obs))%nat ->
      base._get_obs obs (Some context) 0 = inr base.ValueError)
  /\ (base.shape obs <> [] ->
      (axis < - Z.of_nat (length (base.shape obs))
       \/ Z.of_nat (length (base.shape obs)) <= axis)%Z ->
      base._get_obs obs (Some context) axis = inr base.AxisError)
  /\ (length (base.shape obs) = 1%nat ->
      exists r, base._get_obs obs (Some context) 0 = inl r).
Proof.
  unfold base._get_obs, base.concatenate. repeat split.
  - intros ->. reflexivity.
  - intros H. simpl.
    destruct (base.shape obs) as [|d [|d' s]]; simpl in *; try lia.
    reflexivity.
  - intros Hne Hax.
    destruct (base.shape obs) as [|d s]; [congruence|].
    set (n := length (d :: s)) in *.
    replace (Nat.eqb n 0) with false by reflexivity.
    unfold base.normalize_axis.
    destruct (Z.leb_spec (- Z.of_nat n) axis);
      destruct (Z.ltb_spec axis (Z.of_nat n));
      simpl; try reflexivity; lia.
  - intros H. destruct (base.shape obs) as [|d [|d' s]]; try discriminate.
    simpl. eexists. reflexivity.
Qed.
End ArrayFacts.

Lemma get_obs_well_formed_witness :
  base.well_formed
    {| base.shape := [2; 3]%nat; base.data := [1; 2; 5; 3; 4; 6]%Z |}.
Proof.
  apply (get_obs_well_formed Z
           {| base.shape := [2; 2]%nat; base.data := [1; 2; 3; 4]%Z |}
           {| base.shape := [2; 1]%nat; base.data := [5; 6]%Z |}
           {| base.shape := [2; 3]%nat; base.data := [1; 2; 5; 3; 4; 6]%Z |}
           1 eq_refl eq_refl eq_refl).
Defined.

Lemma get_obs_errors_witness :
  base._get_obs {| base.shape := [2; 2]%nat; base.data := [1; 2; 3; 4]%Z |}
                (Some {| base.shape := [2%nat]; base.data := [5; 6]%Z |}) 0
  = inr base.ValueError
  /\ base._get_obs {| base.shape := [2%nat]; base.data := [1; 2]%Z |}
                   (Some {| base.shape := [2%nat]; base.data := [5; 6]%Z |}) 1
     = inr base.AxisError.
Proof.
  split.
  - apply (get_obs_errors Z
             {| base.shape := [2; 2]%nat; base.data := [1; 2; 3; 4]%Z |}
             {| base.shape := [2%nat]; base.data := [5; 6]%Z |} 0).
    simpl. lia.
  - apply (get_obs_errors Z
             {| base.shape := [2%nat]; base.data := [1; 2]%Z |}
             {| base.shape := [2%nat]; base.data := [5; 6]%Z |} 1).
    + discriminate.
    + simpl. lia.
Defined.

(** ** Policy._get_ob_dim *)

Lemma get_ob_dim_zip (a b : list nat) :
  map base.py_sum (base.py_zip a b) = zip_with Nat.add a b.
Proof.
  revert b; induction a as [|x a IH]; intros [|y b]; simpl; auto.
  f_equal. apply IH.
Qed.

Lemma zip_with_add_nth (a b : list nat) (i : nat) :
  (i < Nat.min (length a) (length b))%nat ->
  nth i (zip_with Nat.add a b) O = (nth i a O + nth i b O)%nat.
Proof.
  revert b i; induction a as [|x a IH]; intros [|y b] [|i] H; simpl in *;
    try lia.
  apply IH. lia.
Qed.

Lemma zip_with_add_comm (a b : list nat) :
  zip_with Nat.add a b = zip_with Nat.add b a.
Proof.
  revert b; induction a as [|x a IH]; intros [|y b]; simpl; auto.
  f_equal; [lia | apply IH].
Qed.

(** [_get_ob_dim] with a context space adds the two shapes entry by entry
    and keeps only the positions both shapes have: the result has the length
    of the shorter shape.  It does not depend on which of the two spaces is
    the observation space. *)
Theorem get_ob_dim_entries (ob_space co_space : base.gym_space) :
  length (base._get_ob_dim ob_space (Some co_space))
  = Nat.min (length (base.space_shape ob_space))
            (length (base.space_shape co_space))
  /\ (forall i,
         (i < Nat.min (length (base.space_shape ob_space))
                      (length (base.space_shape co_space)))%nat ->
         nth i (base._get_ob_dim ob_space (Some co_space)) O
         = (nth i (base.space_shape ob_space) O
            + nth i (base.space_shape co_space) O)%nat)
  /\ base._get_ob_dim ob_space (Some co_space)
     = base._get_ob_dim co_space (Some ob_space).
Proof.
  unfold base._get_ob_dim. rewrite !get_ob_dim_zip. split; [|split].
  - apply zip_with_length.
  - intros i Hi. apply zip_with_add_nth. exact Hi.
  - apply zip_with_add_comm.
Qed.

Lemma get_ob_dim_entries_witness :
  nth 0 (base._get_ob_dim {| base.space_shape := [3; 7]%nat |}
                          (Some {| base.space_shape := [2%nat] |})) O
  = (3 + 2)%nat.
Proof.
  apply (get_ob_dim_entries {| base.space_shape := [3; 7]%nat |}
                            {| base.space_shape := [2%nat] |}).
  simpl. lia.
Defined.

(** For rank-1 spaces the two static methods agree: the processed
    observation [_get_obs(obs, context, 0)] of an observation and a context
    drawn from the spaces has the shape [_get_ob_dim] announces. *)
Theorem get_obs_shape_is_get_ob_dim
        (T : Type) (ob_space co_space : base.gym_space)
        (obs context : base.ndarray T) (n m : nat) :
  base.space_shape ob_space = [n] -> base.space_shape co_space = [m] ->
  base.shape obs = [n] -> base.shape context = [m] ->
  base.well_formed obs -> base.well_formed context ->
  exists r,
    base._get_obs obs (Some context) 0 = inl r
    /\ base.shape r = base._get_ob_dim ob_space (Some co_space)
    /\ base.data r = base.data obs ++ base.data context.
Proof.
  intros Hob Hco Hs Hc Wo Wc. unfold base.well_formed in *.
  unfold base._get_obs, base.concatenate, base._get_ob_dim.
  rewrite Hob, Hco, Hs. rewrite Hs, Hc in *. simpl in *.
  eexists. split; [reflexivity|]. simpl. rewrite Hc. simpl.
  split; [unfold base.py_sum; simpl; f_equal; lia|].
  rewrite !firstn_exact by lia. rewrite app_nil_r. reflexivity.
Qed.

Lemma get_obs_shape_is_get_ob_dim_witness :
  exists r,
    base._get_obs {| base.shape := [2%nat]; base.data := [1; 2]%Z |}
                  (Some {| base.shape := [1%nat]; base.data := [3%Z] |}) 0
    = inl r
    /\ base.shape r = [3%nat].
Proof.
  destruct (get_obs_shape_is_get_ob_dim Z
              {| base.space_shape := [2%nat] |}
              {| base.space_shape := [1%nat] |}
              {| base.shape := [2%nat]; base.data := [1; 2]%Z |}
              {| base.shape := [1%nat]; base.data := [3%Z] |}
              2 1 eq_refl eq_refl eq_refl eq_refl eq_refl eq_refl)
    as (r & Hr & Hs & _).
  exists r. split; [exact Hr | exact Hs].
Defined.

(** ** Means of element-wise expressions *)

Lemma zip_with3_length (T U V W : Type) (f : T -> U -> V -> W)
      (u : list T) (v : list U) (w : list V) :
  length v = length u -> length w = length u ->
  length (zip_with3 f u v w) = length u.
Proof.
  revert v w; induction u as [|a u IH]; intros [|b v] [|c w] H1 H2;
    simpl in *; try discriminate; auto.
Qed.

Lemma inv_INR_nonneg (n : nat) : 0 <= / INR n.
Proof.
  destruct n as [|n].
  - simpl. rewrite Rinv_0. lra.
  - apply Rlt_le, Rinv_0_lt_compat, lt_0_INR. lia.
Qed.

Lemma mean_le (l1 l2 : list R) :
  length l1 = length l2 -> np.sum l1 <= np.sum l2 -> np.mean l1 <= np.mean l2.
Proof.
  intros Hl Hs. unfold np.mean, Rdiv. rewrite Hl.
  apply Rmult_le_compat_r; [apply inv_INR_nonneg | exact Hs].
Qed.

Lemma sum_bounds (lo hi : R) (l : list R) :
  (forall x, In x l -> lo <= x <= hi) ->
  INR (length l) * lo <= np.sum l <= INR (length l) * hi.
Proof.
  induction l as [|x l IH]; intros H.
  - simpl. lra.
  - change (np.sum (x :: l)) with (x + np.sum l).
    cbn [length]. rewrite S_INR.
    pose proof (H x (or_introl eq_refl)).
    pose proof (IH (fun y Hy => H y (or_intror Hy))).
    lra.
Qed.

Lemma mean_bounds (lo hi : R) (l : list R) :
  lo <= 0 <= hi -> (forall x, In x l -> lo <= x <= hi) ->
  lo <= np.mean l <= hi.
Proof.
  intros H0 H. destruct l as [|x l].
  - unfold np.mean, Rdiv. simpl. rewrite Rmult_0_l. lra.
  - pose proof (sum_bounds lo hi (x :: l) H) as Hs.
    assert (Hn : 0 < INR (length (x :: l))) by (apply lt_0_INR; simpl; lia).
    unfold np.mean.
    split.
    + apply (Rmult_le_reg_r (INR (length (x :: l)))); [exact Hn|].
      unfold Rdiv. rewrite Rmult_assoc, Rinv_l by lra. lra.
    + apply (Rmult_le_reg_r (INR (length (x :: l)))); [exact Hn|].
      unfold Rdiv. rewrite Rmult_assoc, Rinv_l by lra. lra.
Qed.

Lemma mean_opp (l : list R) : np.mean (map Ropp l) = - np.mean l.
Proof.
  unfold np.mean. rewrite length_map.
  replace (np.sum (map Ropp l)) with (- np.sum l);
    [unfold Rdiv; ring|].
  induction l as [|x l IH]; simpl; [ring|].
  unfold np.sum in IH |- *. simpl. rewrite <- IH. ring.
Qed.

Lemma sum_zip3_ge_zip (F : R -> R -> R -> R) (G : R -> R -> R)
      (u v w : list R) :
  length v = length u -> length w = length u ->
  (forall a b c, G a c <= F a b c) ->
  np.sum (zip_with G u w) <= np.sum (zip_with3 F u v w).
Proof.
  intros H1 H2 HFG. revert v w H1 H2.
  induction u as [|a u IH]; intros [|b v] [|c w] H1 H2; simpl in *;
    try discriminate; try lra.
  pose proof (HFG a b c). pose proof (IH v w ltac:(lia) ltac:(lia)).
  unfold np.sum in *. lra.
Qed.

Lemma sum_nonneg (l : list R) :
  (forall x, In x l -> 0 <= x) -> 0 <= np.sum l.
Proof.
  induction l as [|x l IH]; intros H; simpl; [lra|].
  pose proof (H x (or_introl eq_refl)).
  pose proof (IH (fun y Hy => H y (or_intror Hy))).
  unfold np.sum in *. lra.
Qed.

Lemma mean_nonneg (l : list R) :
  (forall x, In x l -> 0 <= x) -> 0 <= np.mean l.
Proof.
  intros H. unfold np.mean, Rdiv.
  apply Rmult_le_pos; [apply sum_nonneg, H | apply inv_INR_nonneg].
Qed.

Lemma in_zip_with (T U V : Type) (f : T -> U -> V) (u : list T) (v : list U)
      (x : V) :
  In x (zip_with f u v) -> exists a b, x = f a b.
Proof.
  revert v; induction u as [|a u IH]; intros [|b v]; simpl; try contradiction.
  intros [<-|H]; [exists a, b; reflexivity | apply (IH v H)].
Qed.

Lemma sum_zip3_le (F G : R -> R -> R -> R) (u v w : list R) :
  (forall a b c, G a b c <= F a b c) ->
  np.sum (zip_with3 G u v w) <= np.sum (zip_with3 F u v w).
Proof.
  intros HFG. revert v w.
  induction u as [|a u IH]; intros [|b v] [|c w]; simpl; try lra.
  pose proof (HFG a b c). pose proof (IH v w).
  unfold np.sum in *. lra.
Qed.

(** ** The clipped losses against the unclipped ones *)

Section Pessimistic.
Variables (net : tf.net_out) (td : tf.feed_dict).
Variables (adv ret oldneglogp oldvpred : list R) (c : R).
Hypothesis B : formula.batch net td adv ret oldneglogp oldvpred c.

(** On a non-empty batch the clipped value loss is never below the plain
    half mean squared error of the predictions against the returns, which
    is itself non-negative: clipping can only raise the value loss. *)
Theorem vf_loss_at_least_unclipped :
  adv <> [] ->
  exists v,
    tf.eval net td ppo.vf_loss = Some (tf.Scalar v)
    /\ 0 <= 0.5 * np.mean (zip_with (fun p r => (p - r) * (p - r))
                                    (tf.vf_out net) ret)
       <= v.
Proof.
  intros _.
  eexists. split; [apply (eval_vf_loss _ _ _ _ _ _ _ B)|].
  destruct B.
  split.
  - apply Rmult_le_pos; [lra|].
    apply mean_nonneg. intros x Hx.
    apply in_zip_with in Hx as (p & r & ->). exact (Rle_0_sqr (p - r)).
  - replace 0.5 with (/ 2) by lra.
    apply Rmult_le_compat_l; [lra|].
    apply mean_le.
    + rewrite zip_with_length, zip_with3_length by lia. lia.
    + apply sum_zip3_ge_zip; try lia.
      intros p o r. unfold formula.vf_term. apply Rmax_l.
Qed.

(** The clipped policy loss is never below the unclipped surrogate loss
    [mean(-ADV * ratio)]: clipping can only raise the policy loss. *)
Theorem pg_loss_at_least_unclipped :
  exists v,
    tf.eval net td ppo.pg_loss = Some (tf.Scalar v)
    /\ np.mean (zip_with3 (fun a o n => - a * Rtrigo_def.exp (o - n))
                          adv oldneglogp (tf.neglogp_out net))
       <= v.
Proof.
  eexists. split; [apply (eval_pg_loss _ _ _ _ _ _ _ B)|].
  destruct B.
  apply mean_le.
  - rewrite !zip_with3_length by lia. reflexivity.
  - apply sum_zip3_le. intros a o n.
    unfold formula.pg_term. apply Rmax_l.
Qed.

(** On a non-empty batch the two diagnostics have the range their names
    promise: [approxkl] is non-negative and [clipfrac] is a fraction between
    0 and 1. *)
Theorem diagnostics_ranges :
  adv <> [] ->
  exists kl cf,
    tf.eval net td ppo.approxkl = Some (tf.Scalar kl)
    /\ tf.eval net td ppo.clipfrac = Some (tf.Scalar cf)
    /\ 0 <= kl /\ 0 <= cf <= 1.
Proof.
  intros _.
  do 2 eexists.
  split; [apply (eval_approxkl _ _ _ _ _ _ _ B)|].
  split; [apply (eval_clipfrac _ _ _ _ _ _ _ B)|].
  split.
  - apply Rmult_le_pos; [lra|].
    apply mean_nonneg. intros x Hx.
    apply in_zip_with in Hx as (p & r & ->). exact (Rle_0_sqr (p - r)).
  - apply mean_bounds; [lra|].
    intros x Hx. apply in_map_iff in Hx as (r & <- & _).
    unfold tf.gt_ind. destruct (Rlt_dec c (Rabs (r - 1))); lra.
Qed.
End Pessimistic.

Lemma vf_loss_at_least_unclipped_witness :
  exists v,
    tf.eval sample.net sample.td ppo.vf_loss = Some (tf.Scalar v)
    /\ 0 <= 0.5 * np.mean (zip_with (fun p r => (p - r) * (p - r))
                                    [2; 0] [1; 3])
       <= v.
Proof.
  apply (vf_loss_at_least_unclipped sample.net sample.td
           [1; -1] [1; 3] [0; 0] [0; 0] 0.2 sample_batch).
  discriminate.
Defined.

Lemma pg_loss_at_least_unclipped_witness :
  exists v,
    tf.eval sample.net sample.td ppo.pg_loss = Some (tf.Scalar v)
    /\ np.mean (zip_with3 (fun a o n => - a * Rtrigo_def.exp (o - n))
                          [1; -1] [0; 0] [0; 1])
       <= v.
Proof.
  exact (pg_loss_at_least_unclipped sample.net sample.td
           [1; -1] [1; 3] [0; 0] [0; 0] 0.2 sample_batch).
Defined.

Lemma diagnostics_ranges_witness :
  exists kl cf,
    tf.eval sample.net sample.td ppo.approxkl = Some (tf.Scalar kl)
    /\ tf.eval sample.net sample.td ppo.clipfrac = Some (tf.Scalar cf)
    /\ 0 <= kl /\ 0 <= cf <= 1.
Proof.
  apply (diagnostics_ranges sample.net sample.td
           [1; -1] [1; 3] [0; 0] [0; 0] 0.2 sample_batch).
  discriminate.
Defined.

(** ** A policy and a value function that have not moved *)

Lemma mean_zeros (l : list R) :
  (forall x, In x l -> x = 0) -> np.mean l = 0.
Proof.
  intros H. unfold np.mean. rewrite (sum_const 0) by exact H.
  unfold Rdiv. ring.
Qed.

Lemma clip_inside (t lo hi : R) : lo <= t <= hi -> tf.clip t lo hi = t.
Proof.
  intros [H1 H2]. unfold tf.clip.
  rewrite Rmin_left by exact H2. apply Rmax_left. exact H1.
Qed.

Lemma pg_term_same (c a o : R) : 0 <= c -> formula.pg_term c a o o = - a.
Proof.
  intros Hc. unfold formula.pg_term.
  replace (o - o) with 0 by ring. rewrite exp_0.
  rewrite clip_inside by lra. rewrite Rmax_left by lra. ring.
Qed.

Lemma zip_with3_same (F : R -> R -> R -> R) (g : R -> R) (u v : list R) :
  length v = length u -> (forall a b, F a b b = g a) ->
  zip_with3 F u v v = map g u.
Proof.
  intros H HF. revert v H.
  induction u as [|a u IH]; intros [|b v] H; simpl in *;
    try discriminate; auto.
  rewrite HF, IH by lia. reflexivity.
Qed.

Lemma zip_with3_same12 (F : R -> R -> R -> R) (G : R -> R -> R)
      (u w : list R) :
  length w = length u -> (forall a c, F a a c = G a c) ->
  zip_with3 F u u w = zip_with G u w.
Proof.
  intros H HF. revert w H.
  induction u as [|a u IH]; intros [|c w] H; simpl in *;
    try discriminate; auto.
  rewrite HF, IH by lia. reflexivity.
Qed.

Section Unmoved.
Variables (net : tf.net_out) (td : tf.feed_dict).
Variables (adv ret oldneglogp oldvpred : list R) (c : R).
Hypothesis B : formula.batch net td adv ret oldneglogp oldvpred c.
Hypothesis Hc : 0 <= c.

(** When the train model gives every sample of a non-empty batch the
    negative log-probability it had when the batch was collected, the ratio
    is 1 everywhere: the policy loss is minus the mean advantage, and both
    diagnostics are 0. *)
Theorem unmoved_policy_statistics :
  adv <> [] ->
  tf.neglogp_out net = oldneglogp ->
  tf.eval net td ppo.pg_loss = Some (tf.Scalar (- np.mean adv))
  /\ tf.eval net td ppo.approxkl = Some (tf.Scalar 0)
  /\ tf.eval net td ppo.clipfrac = Some (tf.Scalar 0).
Proof.
  intros _ Hsame.
  rewrite (eval_pg_loss _ _ _ _ _ _ _ B), (eval_approxkl _ _ _ _ _ _ _ B),
    (eval_clipfrac _ _ _ _ _ _ _ B).
  destruct B. rewrite Hsame.
  split; [|split]; do 2 f_equal.
  - rewrite (zip_with3_same (formula.pg_term c) Ropp) by
      (try assumption; intros a o; apply pg_term_same, Hc).
    apply mean_opp.
  - rewrite mean_zeros; [ring|].
    intros x Hx. revert Hx. clear.
    induction oldneglogp as [|o l IH]; simpl; [contradiction|].
    intros [<-|H]; [unfold formula.kl_term; ring | apply IH, H].
  - apply mean_zeros.
    intros x Hx. apply in_map_iff in Hx as (r & <- & Hr).
    assert (r = 1) as ->.
    { revert Hr. clear.
      induction oldneglogp as [|o l IH]; simpl; [contradiction|].
      intros [<-|H]; [|apply IH, H].
      replace (o - o) with 0 by ring. apply exp_0. }
    unfold tf.gt_ind. replace (1 - 1) with 0 by ring. rewrite Rabs_R0.
    destruct (Rlt_dec c 0); [lra | reflexivity].
Qed.

(** When the value predictions equal the old ones, clipping is inactive:
    the value loss is the plain half mean squared error. *)
Theorem unmoved_value_loss :
  tf.vf_out net = oldvpred ->
  tf.eval net td ppo.vf_loss
  = Some (tf.Scalar
            (0.5 * np.mean (zip_with (fun p r => (p - r) * (p - r))
                                     oldvpred ret))).
Proof.
  intros Hsame. rewrite (eval_vf_loss _ _ _ _ _ _ _ B).
  destruct B. rewrite Hsame.
  rewrite (zip_with3_same12 (formula.vf_term c)
                            (fun p r => (p - r) * (p - r))).
  - do 2 f_equal. lra.
  - lia.
  - intros p r. unfold formula.vf_term.
    replace (p - p) with 0 by ring. rewrite clip_inside by lra.
    replace (p + 0 - r) with (p - r) by ring. apply Rmax_left. lra.
Qed.
End Unmoved.

Lemma sample_batch_unmoved :
  formula.batch sample.net_unmoved sample.td [1; -1] [1; 3] [0; 0] [0; 0] 0.2.
Proof. constructor; reflexivity. Qed.

Lemma unmoved_policy_statistics_witness :
  tf.eval sample.net_unmoved sample.td ppo.pg_loss
  = Some (tf.Scalar (- np.mean [1; -1]))
  /\ tf.eval sample.net_unmoved sample.td ppo.approxkl = Some (tf.Scalar 0)
  /\ tf.eval sample.net_unmoved sample.td ppo.clipfrac = Some (tf.Scalar 0).
Proof.
  apply (unmoved_policy_statistics sample.net_unmoved sample.td
           [1; -1] [1; 3] [0; 0] [0; 0] 0.2 sample_batch_unmoved);
    [lra | discriminate | reflexivity].
Defined.

Lemma unmoved_value_loss_witness :
  tf.eval sample.net_unmoved sample.td ppo.vf_loss
  = Some (tf.Scalar
            (0.5 * np.mean (zip_with (fun p r => (p - r) * (p - r))
                                     [0; 0] [1; 3]))).
Proof.
  apply (unmoved_value_loss sample.net_unmoved sample.td
           [1; -1] [1; 3] [0; 0] [0; 0] 0.2 sample_batch_unmoved);
    [lra | reflexivity].
Defined.

(** ** One call of [train] on a well-shaped batch *)

Section TrainStep.
Variable theta : Type.
Variable forward : ppo.policy_model -> theta -> tf.feed_dict -> tf.net_out.
Variable autodiff :
  tf.tensor -> tf.variables -> theta -> tf.feed_dict -> list R.
Variable allreduce_mean : tf.communicator -> Q -> list R -> list R.
Variable adam_update : R -> Q -> list R -> theta -> theta.

Variables (MPI : option ppo.mpi_module) (kw : ppo.kwargs).
Variables (th : theta) (lr clip_range : R).
Variables (obs : list (list R)) (returns masks : list R).
Variables (actions : list (list R)) (values neglogpacs : list R).
Variable states : option (list (list R)).
Variable td : tf.feed_dict.

Local Abbreviation self := (fst (ppo.__init__ MPI kw)).
Local Abbreviation net := (forward (ppo.train_model self) th td).
Local Abbreviation advs := (ppo.normalize (zip_with Rminus returns values)).

Hypothesis Htd :
  ppo.train_td_map lr clip_range obs returns masks actions values neglogpacs
                   states = Some td.
Hypothesis Hvalues : length values = length returns.
Hypothesis Hneglogpacs : length neglogpacs = length returns.
Hypothesis Hneglogp : length (tf.neglogp_out net) = length returns.
Hypothesis Hentropy : length (tf.entropy_out net) = length returns.
Hypothesis Hvf : length (tf.vf_out net) = length returns.

Lemma train_values :
  ppo.train forward autodiff allreduce_mean adam_update self th lr clip_range
            obs returns masks actions values neglogpacs states
  = Some ([ppo.Fetched
             (tf.Scalar
                (np.mean (zip_with3 (formula.pg_term clip_range) advs
                                    neglogpacs (tf.neglogp_out net))));
           ppo.Fetched
             (tf.Scalar
                (/ 2 * np.mean (zip_with3 (formula.vf_term clip_range)
                                          (tf.vf_out net) values returns)));
           ppo.Fetched (tf.Scalar (np.mean (tf.entropy_out net)));
           ppo.Fetched
             (tf.Scalar
                (/ 2 * np.mean (zip_with formula.kl_term (tf.neglogp_out net)
                                         neglogpacs)));
           ppo.Fetched
             (tf.Scalar
                (np.mean
                   (map (fun r => tf.gt_ind (Rabs (r - 1)) clip_range)
                        (zip_with (fun o n => Rtrigo_def.exp (o - n))
                                  neglogpacs (tf.neglogp_out net)))))],
          adam_update lr 1e-5
            (ppo.eval_gradients autodiff allreduce_mean th td (ppo.grads self))
            th).
Proof.
  destruct (train_td_map_batch net lr clip_range obs returns masks actions
              values neglogpacs states td Htd Hvalues Hneglogpacs Hneglogp
              Hentropy Hvf) as [B HLR].
  unfold ppo.train. rewrite Htd. cbn [obind]. unfold ppo.sess_run.
  change (ppo.stats_list self)
    with [ppo.pg_loss; ppo.vf_loss; ppo.entropy; ppo.approxkl; ppo.clipfrac].
  cbn [map app ppo.run_fetches].
  rewrite (eval_pg_loss _ _ _ _ _ _ _ B), (eval_vf_loss _ _ _ _ _ _ _ B),
    (eval_entropy net td), (eval_approxkl _ _ _ _ _ _ _ B),
    (eval_clipfrac _ _ _ _ _ _ _ B).
  cbn [obind].
  change (ppo._train_op self)
    with (tf.apply_gradients (tf.AdamOptimizer ppo.LR 1e-5)
                             (ppo.grads self) (ppo.var self)).
  cbn [ppo.run_op]. unfold ppo.LR. cbn [tf.eval]. rewrite HLR.
  reflexivity.
Qed.

(** On a well-shaped batch [train] returns five statistics, and it moves
    the session by one Adam step whose learning rate is the [lr] argument
    and whose epsilon is 1e-5, on the gradients of the total loss (clipped
    when [max_grad_norm] is given) taken at the parameters the call started
    from. *)
Theorem train_adam_step :
  exists stats,
    ppo.train forward autodiff allreduce_mean adam_update self th lr
              clip_range obs returns masks actions values neglogpacs states
    = Some (stats,
            adam_update lr 1e-5
              (ppo.eval_gradients autodiff allreduce_mean th td
                                  (ppo.grads self))
              th)
    /\ length stats = 5%nat
    /\ tf.objective (ppo.grads self)
       = ppo.loss (ppo.ent_coef kw) (ppo.vf_coef kw).
Proof.
  eexists. split; [apply train_values|].
  split; [reflexivity | apply objective_of_init].
Qed.
End TrainStep.

Lemma train_adam_step_witness :
  exists stats th',
    ppo.train sample.forward sample.autodiff sample.allreduce_mean
              sample.adam_update (fst (ppo.__init__ None sample.kw)) tt
              1e-3 0.2 [[0]; [0]] [1; 3] [0; 0] [[0]; [0]] [0; 0] [0; 0] None
    = Some (stats, th')
    /\ length stats = 5%nat.
Proof.
  destruct (train_adam_step unit sample.forward sample.autodiff
              sample.allreduce_mean sample.adam_update None sample.kw tt
              1e-3 0.2 [[0]; [0]] [1; 3] [0; 0] [[0]; [0]] [0; 0] [0; 0] None
              _ eq_refl eq_refl eq_refl eq_refl eq_refl eq_refl)
    as (stats & Htrain & Hstats & _).
  exists stats. eexists. split; [exact Htrain | exact Hstats].
Defined.

(** ** Clipping by global norm *)



Section AppliedGradients.
Variable theta : Type.
Variable autodiff :
  tf.tensor -> tf.variables -> theta -> tf.feed_dict -> list R.
Variable allreduce_mean : tf.communicator -> Q -> list R -> list R.

End AppliedGradients.


(** ** What [train] feeds besides the advantages, and when it raises *)

(** The recurrent inputs reach the graph only together: without [states]
    neither [S] nor [M] is fed (the [masks] argument is ignored); with
    [states], [S] is fed [states] and [M] is fed [masks].  In both cases [X]
    is fed the observations and [A] the actions. *)
Theorem train_feeds_states_and_masks
        (lr clip_range : R) (obs : list (list R)) (returns masks : list R)
        (actions : list (list R)) (values neglogpacs advs : list R) :
  np.subtract returns values = Some advs ->
  (exists td,
      ppo.train_td_map lr clip_range obs returns masks actions values
                       neglogpacs None = Some td
      /\ tf.feed_get tf.train_model_S td = None
      /\ tf.feed_get tf.train_model_M td = None
      /\ tf.feed_get tf.train_model_X td = Some (tf.FMatrix obs)
      /\ tf.feed_get tf.self_A td = Some (tf.FMatrix actions))
  /\ (forall states,
         exists td,
           ppo.train_td_map lr clip_range obs returns masks actions values
                            neglogpacs (Some states) = Some td
           /\ tf.feed_get tf.train_model_S td = Some (tf.FMatrix states)
           /\ tf.feed_get tf.train_model_M td = Some (tf.FVector masks)
           /\ tf.feed_get tf.train_model_X td = Some (tf.FMatrix obs)
           /\ tf.feed_get tf.self_A td = Some (tf.FMatrix actions)).
Proof.
  intros H. unfold ppo.train_td_map. rewrite H. cbn [obind].
  split; [|intros states]; eexists; (split; [reflexivity|]);
    repeat split; reflexivity.
Qed.

Lemma train_feeds_states_and_masks_witness :
  exists td,
    ppo.train_td_map 1e-3 0.2 [[0]; [0]] [1; 3] [1; 0] [[0]; [0]] [0; 0]
                     [0; 0] None = Some td
    /\ tf.feed_get tf.train_model_M td = None.
Proof.
  destruct (train_feeds_states_and_masks 1e-3 0.2 [[0]; [0]] [1; 3] [1; 0]
              [[0]; [0]] [0; 0] [0; 0] (zip_with Rminus [1; 3] [0; 0])
              eq_refl) as [(td & Htd & _ & HM & _) _].
  exists td. split; assumption.
Defined.

Lemma broadcast2_none (f : R -> R -> R) (u v : list R) :
  broadcast2 f u v = None
  <-> (length u <> length v /\ length u <> 1%nat /\ length v <> 1%nat).
Proof.
  unfold broadcast2.
  destruct (Nat.eqb_spec (length u) (length v)) as [E|E].
  - split; [discriminate | intros [H _]; contradiction].
  - destruct u as [|a [|a' u]], v as [|b [|b' v]]; simpl in *;
      split; intros H; try discriminate; try reflexivity; lia.
Qed.

Section TrainRaises.
Variable theta : Type.
Variable forward : ppo.policy_model -> theta -> tf.feed_dict -> tf.net_out.
Variable autodiff :
  tf.tensor -> tf.variables -> theta -> tf.feed_dict -> list R.
Variable allreduce_mean : tf.communicator -> Q -> list R -> list R.
Variable adam_update : R -> Q -> list R -> theta -> theta.

(** [train] raises on [returns - values], before anything is fed or run,
    exactly when the two vectors have different lengths and neither has
    length 1; in that case the call gives no result and no new session
    state. *)
Theorem train_raises_on_incompatible_lengths
        (self : ppo.Model) (th : theta) (lr clip_range : R)
        (obs : list (list R)) (returns masks : list R)
        (actions : list (list R)) (values neglogpacs : list R)
        (states : option (list (list R))) :
  (ppo.train_td_map lr clip_range obs returns masks actions values neglogpacs
                    states = None
   <-> (length returns <> length values
        /\ length returns <> 1%nat /\ length values <> 1%nat))
  /\ (length returns <> length values ->
      length returns <> 1%nat -> length values <> 1%nat ->
      ppo.train forward autodiff allreduce_mean adam_update self th lr
                clip_range obs returns masks actions values neglogpacs states
      = None).
Proof.
  assert (Hiff : ppo.train_td_map lr clip_range obs returns masks actions
                                  values neglogpacs states = None
                 <-> np.subtract returns values = None).
  { unfold ppo.train_td_map.
    destruct (np.subtract returns values); cbn [obind];
      split; intros H; try discriminate H; reflexivity. }
  split.
  - rewrite Hiff. apply broadcast2_none.
  - intros H1 H2 H3. unfold ppo.train.
    replace (ppo.train_td_map lr clip_range obs returns masks actions values
                              neglogpacs states) with (@None tf.feed_dict);
      [reflexivity|].
    symmetry. apply Hiff, broadcast2_none. auto.
Qed.
End TrainRaises.

Lemma train_raises_on_incompatible_lengths_witness :
  ppo.train sample.forward sample.autodiff sample.allreduce_mean
            sample.adam_update (fst (ppo.__init__ None sample.kw)) tt
            1e-3 0.2 [[0]; [0]] [1; 3] [0; 0] [[0]; [0]] [0; 0; 0] [0; 0] None
  = None.
Proof.
  apply (train_raises_on_incompatible_lengths unit sample.forward
           sample.autodiff sample.allreduce_mean sample.adam_update
           (fst (ppo.__init__ None sample.kw)) tt 1e-3 0.2 [[0]; [0]] [1; 3]
           [0; 0] [[0]; [0]] [0; 0; 0] [0; 0] None);
    simpl; lia.
Defined.

(** A single value is a baseline for the whole batch: with [values] of
    length 1, the raw advantages are every return minus that value, and
    [ADV] is fed their normalisation. *)
Theorem train_broadcasts_single_value
        (lr clip_range : R) (obs : list (list R)) (returns masks : list R)
        (actions : list (list R)) (v : R) (neglogpacs : list R)
        (states : option (list (list R))) :
  np.subtract returns [v] = Some (map (fun r => r - v) returns)
  /\ exists td,
      ppo.train_td_map lr clip_range obs returns masks actions [v] neglogpacs
                       states = Some td
      /\ tf.feed_get tf.self_ADV td
         = Some (tf.FVector (ppo.normalize (map (fun r => r - v) returns))).
Proof.
  assert (H : np.subtract returns [v] = Some (map (fun r => r - v) returns)).
  { unfold np.subtract, broadcast2.
    destruct returns as [|r [|r' l]]; reflexivity. }
  split; [exact H|].
  destruct (train_td_map_feeds lr clip_range obs returns masks actions [v]
              neglogpacs states _ H) as (td & Htd & HADV & _).
  exists td. split; assumption.
Qed.

(** ** What the differentiated loss reads *)


(** ** Where the clipping of the surrogate acts *)

Section Regions.
Variables (net : tf.net_out) (td : tf.feed_dict).
Variables (adv ret oldneglogp oldvpred : list R) (c : R).
Hypothesis B : formula.batch net td adv ret oldneglogp oldvpred c.
Hypothesis Hc : 0 <= c.

(** The policy loss is the mean of a per-sample term that, for a ratio [r]
    and advantage [a], is the unclipped [-a * r] while [r] is inside
    [1 - c, 1 + c] and whenever moving the ratio towards 1 would lower
    the loss, and is frozen at [-a * (1 + c)] once [r >= 1 + c] with
    [a >= 0], and at [-a * (1 - c)] once [r <= 1 - c] with [a <= 0]. *)
Theorem pg_loss_regions :
  tf.eval net td ppo.pg_loss
  = Some (tf.Scalar
            (np.mean (zip_with3 (formula.pg_term c) adv oldneglogp
                                (tf.neglogp_out net))))
  /\ forall a o n : R,
      let r := Rtrigo_def.exp (o - n) in
      (1 - c <= r <= 1 + c -> formula.pg_term c a o n = - a * r)
      /\ (0 <= a -> 1 + c <= r -> formula.pg_term c a o n = - a * (1 + c))
      /\ (a <= 0 -> r <= 1 - c -> formula.pg_term c a o n = - a * (1 - c))
      /\ (0 <= a -> r <= 1 - c -> formula.pg_term c a o n = - a * r)
      /\ (a <= 0 -> 1 + c <= r -> formula.pg_term c a o n = - a * r).
Proof.
  split; [apply (eval_pg_loss _ _ _ _ _ _ _ B)|].
  intros a o n r. unfold formula.pg_term. fold r.
  unfold tf.clip.
  repeat split; intros.
  - rewrite Rmin_left, (Rmax_left r) by lra. apply Rmax_left. lra.
  - rewrite Rmin_right, (Rmax_left (1 + c)) by lra. apply Rmax_right. nra.
  - rewrite Rmin_left, (Rmax_right r) by lra. apply Rmax_right. nra.
  - rewrite Rmin_left, (Rmax_right r) by lra. apply Rmax_left. nra.
  - rewrite Rmin_right, (Rmax_left (1 + c)) by lra. apply Rmax_left. nra.
Qed.
End Regions.

Lemma pg_loss_regions_witness :
  formula.pg_term 0.2 1 0 0 = - 1 * Rtrigo_def.exp (0 - 0).
Proof.
  destruct (pg_loss_regions sample.net sample.td [1; -1] [1; 3] [0; 0] [0; 0]
              0.2 sample_batch ltac:(lra)) as [_ H].
  destruct (H 1 0 0) as [Hin _]. apply Hin.
  replace (0 - 0) with 0 by ring. rewrite exp_0. lra.
Defined.
